(** * Student marks dashboard: the record writer, the record reader and the
      read-aggregate-render pipeline of [app.py], with the properties of its
      specification.

    The script is embedded block by block.  The Firestore collection
    ["students"] is a finite map from document identifiers to documents, a
    document is a finite map from attribute names to values, the rows that
    [fetch_all] builds are Python dicts (insertion-ordered association
    lists), and what Streamlit shows is a list of [ui] elements. *)

From Stdlib Require Import ZArith QArith Qround Qpower String Ascii List.
From Stdlib Require Import DecimalString DecimalPos DecimalZ Lqa.
From stdpp Require Import gmap strings list fin_maps sorting.

Local Open Scope string_scope.
Local Open Scope Z_scope.

(** ** Values and documents *)

(** What a document attribute (and so a cell of the data frame) can hold:
    a string, an integer, or nothing ([None], Firestore's null). *)
Inductive value :=
| VStr (s : string)
| VInt (n : Z)
| VNone.

#[global] Instance value_eq_dec : EqDecision value.
Proof. solve_decision. Defined.

(** [d.to_dict()]: attribute name to value. *)
Abbreviation document := (gmap string value).

(** The collection ["students"]: document identifier to document. *)
Abbreviation collection := (gmap string (gmap string value)).

(** A Python dict literal keeps the order of its keys. *)
Abbreviation pydict := (list (string * value)).

(** [pd.DataFrame(rows)], kept as its list of records.  Every record of a
    frame built by [fetch_all] has the same keys in the same order, the
    columns of the frame. *)
Abbreviation DataFrame := (list (list (string * value))).

(** ** Calendar dates *)

(** [datetime.date]: the value of [st.date_input]. *)
Record Date := mkDate { year : Z; month : Z; day : Z }.

#[global] Instance Date_eq_dec : EqDecision Date.
Proof. solve_decision. Defined.

Definition is_leap (y : Z) : bool :=
  (y mod 4 =? 0) && negb (y mod 100 =? 0) || (y mod 400 =? 0).

Definition days_in_month (y m : Z) : Z :=
  if m =? 2 then (if is_leap y then 29 else 28)
  else if (m =? 4) || (m =? 6) || (m =? 9) || (m =? 11) then 30
  else 31.

(** The dates Python can build: [MINYEAR = 1], [MAXYEAR = 9999]. *)
Definition date_valid (d : Date) : Prop :=
  1 <= year d <= 9999 /\ 1 <= month d <= 12 /\
  1 <= day d <= days_in_month (year d) (month d).

Definition digit (n : Z) : ascii := ascii_of_N (Z.to_N (48 + n)).

Definition pad2 (n : Z) : string :=
  String (digit (n / 10 mod 10)) (String (digit (n mod 10)) "").

Definition pad4 (n : Z) : string :=
  String (digit (n / 1000 mod 10)) (String (digit (n / 100 mod 10)) (pad2 n)).

(** [date.isoformat()]: ["%04d-%02d-%02d"]. *)
Definition isoformat (d : Date) : string :=
  pad4 (year d) +:+ "-" +:+ pad2 (month d) +:+ "-" +:+ pad2 (day d).

(** [d1] is no later than [d2]. *)
Definition chronological (d1 d2 : Date) : Prop :=
  year d1 < year d2
  \/ (year d1 = year d2
      /\ (month d1 < month d2
          \/ (month d1 = month d2 /\ day d1 <= day d2))).

(** A row whose cells hold what the record writer stores: strings, and an
    integer in [marks].  The pandas operations of the dashboard are embedded
    on frames of such rows. *)
Record MarkRecord := mkRecord {
  r_id : string;
  r_name : string;
  r_student_id : string;
  r_subject : string;
  r_marks : Z;
  r_date : string
}.

#[global] Instance MarkRecord_eq_dec : EqDecision MarkRecord.
Proof. solve_decision. Defined.

(** ** What the page shows *)

(** A result of a reduction: [max], [min] and [count] of an integer column
    are integers, [mean] is a float (kept as the rational it denotes). *)
Inductive number :=
| NInt (n : Z)
| NFloat (q : Q).

Inductive figure :=
| bar_chart (series : list (string * number)) (ylabel xlabel title : string)
| line_chart (points : list (Date * Z)) (xlabel ylabel : string) (ylim : Z * Z).

Inductive ui :=
| st_error (body : string)
| st_warning (body : string)
| st_success (body : string)
| st_info (body : string)
| st_header (body : string)
| st_subheader (body : string)
| st_dataframe (data : list MarkRecord)
| st_table (data : list (string * number)) (column : string)
| st_pyplot (fig : figure)
| st_download_button (label data file_name mime : string).

(** How a block of the script ends: it runs to its end, [st.stop()] halts
    the script, or an exception escapes. *)
Inductive outcome (A : Type) :=
| Done (a : A)
| Stopped
| Raised (exn : string).
Arguments Done {A} a.
Arguments Stopped {A}.
Arguments Raised {A} exn.

(** A block of the script: what it wrote to the page, and how it ended. *)
Definition script (A : Type) : Type := list ui * outcome A.

#[global] Instance script_ret : MRet script := fun A a => ([], Done a).

Definition emit (u : ui) : script unit := ([u], Done tt).

Definition stop {A} : script A := ([], Stopped).

Definition raise {A} (exn : string) : script A := ([], Raised exn).

#[global] Instance script_bind : MBind script := fun A B k m =>
  match m with
  | (out, Done a) => let '(out', r) := k a in ((out ++ out')%list, r)
  | (out, Stopped) => (out, Stopped)
  | (out, Raised e) => (out, Raised e)
  end.

(** ** Record writer *)

Definition new_document (name student_id subject : string) (marks : Z)
    (date_str : string) : document :=
  list_to_map
    [("name", VStr name); ("student_id", VStr student_id);
     ("subject", VStr subject); ("marks", VInt marks);
     ("date", VStr date_str)].

(** [add_mark]: [doc_id] is the identifier that [document()] generated;
    [set] stores the document under it. *)
Definition add_mark (db : collection) (doc_id : string)
    (name student_id subject : string) (marks : Z) (date_str : string)
    : collection :=
  <[doc_id := new_document name student_id subject marks date_str]> db.

(** ** Record reader *)

(** [db.collection("students").stream()]: every document with its
    identifier, in the order in which the store hands them out. *)
Definition stream (db : collection) : list (string * document) :=
  map_to_list db.

(** [data.get(key, dflt)]. *)
Definition get (data : document) (key : string) (dflt : value) : value :=
  default dflt (data !! key).

(** The dict appended to [rows] for one document. *)
Definition fetch_row (d : string * document) : pydict :=
  let data := d.2 in
  [("id", VStr d.1);
   ("name", get data "name" (VStr ""));
   ("student_id", get data "student_id" (VStr ""));
   ("subject", get data "subject" (VStr ""));
   ("marks", get data "marks" (VInt 0));
   ("date", get data "date" (VStr ""))].

Definition fetch_all (db : collection) : DataFrame :=
  map fetch_row (stream db).

(** The five attributes that [fetch_all] reads from a document. *)
Definition document_attributes : list string :=
  ["name"; "student_id"; "subject"; "marks"; "date"].

(** [df.empty]. *)
Definition empty (df : DataFrame) : bool :=
  match df with [] => true | _ => false end.

(** [row[key]] of a record; a key the record lacks is a missing cell. *)
Fixpoint cell (key : string) (r : pydict) : value :=
  match r with
  | [] => VNone
  | (k, v) :: r' => if decide (k = key) then v else cell key r'
  end.

(** ** Data entry form *)

(** The values of the widgets of [entry_form] in one run of the script.
    [st.number_input] with integer bounds returns an integer, so [int(marks)]
    is [marks] itself. *)
Record form_input := mkForm {
  name : string;
  student_id : string;
  subject : string;
  marks : Z;
  date : Date;
  submitted : bool
}.

(** What the number widget can return: [min_value=0], [max_value=100]. *)
Definition widget_bounds (f : form_input) : Prop := 0 <= marks f <= 100.

(** The body of [with st.sidebar.form("entry_form", ...)]: the collection
    after the run, and what the form wrote. *)
Definition entry_form (db : collection) (doc_id : string)
    (f : form_input) : script collection :=
  if submitted f then
    let date_str := isoformat (date f) in
    if bool_decide (name f = "") || bool_decide (subject f = "") then
      emit (st_warning "Please enter at least Student Name and Subject.");;
      mret db
    else
      let db' := add_mark db doc_id (name f) (student_id f) (subject f)
                   (marks f) date_str in
      emit (st_success "Record added successfully!");;
      mret db'
  else mret db.

(** The submissions that the form accepts: both required fields filled in,
    marks within the bounds of the number widget, a date of the calendar. *)
Definition valid_submission (f : form_input) : Prop :=
  submitted f = true /\ name f <> "" /\ subject f <> "" /\
  widget_bounds f /\ date_valid (date f).

(** The row of the frame that carries the submitted values under [doc_id]. *)
Definition submitted_row (doc_id : string) (f : form_input)
    : pydict :=
  [("id", VStr doc_id); ("name", VStr (name f));
   ("student_id", VStr (student_id f)); ("subject", VStr (subject f));
   ("marks", VInt (marks f)); ("date", VStr (isoformat (date f)))].

(** ** The frame as the dashboard reads it *)

(** The columns of a frame built by [fetch_all]. *)
Definition mark_columns : list string :=
  ["id"; "name"; "student_id"; "subject"; "marks"; "date"].

Definition as_record (r : pydict) : option MarkRecord :=
  if decide (r.*1 = mark_columns) then
    match r.*2 with
    | [VStr i; VStr n; VStr s; VStr sj; VInt m; VStr d] =>
        Some (mkRecord i n s sj m d)
    | _ => None
    end
  else None.

Definition of_record (r : MarkRecord) : pydict :=
  [("id", VStr (r_id r)); ("name", VStr (r_name r));
   ("student_id", VStr (r_student_id r)); ("subject", VStr (r_subject r));
   ("marks", VInt (r_marks r)); ("date", VStr (r_date r))].

(** [None]: some cell holds a value of a type that the record writer never
    stores; what pandas does with such a column is outside this embedding. *)
Definition records (df : DataFrame) : option (list MarkRecord) :=
  mapM as_record df.

(** ** Aggregator *)

Inductive agg := Average | Max | Min | Count.

#[global] Instance agg_eq_dec : EqDecision agg.
Proof. solve_decision. Defined.

(** The option of the "Aggregate" select box, as a string. *)
Definition agg_name (a : agg) : string :=
  match a with
  | Average => "Average" | Max => "Max" | Min => "Min" | Count => "Count"
  end.

(** The values of the select boxes and of the check box. *)
Record selection := mkSelection {
  subj_filter : string;
  student_filter : string;
  agg_choice : agg;
  show_chart : bool
}.

(** [filtered = df.copy()] and the two equality filters. *)
Definition apply_filters (df : list MarkRecord) (subj student : string)
    : list MarkRecord :=
  let filtered := df in
  let filtered :=
    if bool_decide (subj <> "All")
    then filter (fun r => r_subject r = subj) filtered else filtered in
  let filtered :=
    if bool_decide (student <> "All")
    then filter (fun r => r_name r = student) filtered else filtered in
  filtered.

(** [groupby("subject")["marks"]]: one group per distinct subject, the keys
    in sorted order, each with the marks of its rows. *)
Definition group_keys (df : list MarkRecord) : list string :=
  merge_sort String.le (remove_dups (r_subject <$> df)).

Definition group (df : list MarkRecord) (key : string) : list Z :=
  r_marks <$> filter (fun r => r_subject r = key) df.

Definition groupby_marks (df : list MarkRecord) : list (string * list Z) :=
  (fun key => (key, group df key)) <$> group_keys df.

(** The exact sum of the marks of a group. *)
Definition sum_list (l : list Z) : Z := foldr Z.add 0 l.

(** The reductions on the integers of a group; a group is never empty. *)
Definition max (l : list Z) : Z :=
  match l with [] => 0 | x :: l' => foldr Z.max x l' end.

Definition min (l : list Z) : Z :=
  match l with [] => 0 | x :: l' => foldr Z.min x l' end.

Definition count (l : list Z) : Z := Z.of_nat (length l).

(** Rounding to the nearest integer, ties to the even one. *)
Definition round_half_even (q : Q) : Z :=
  let f := Qfloor q in
  match Qcompare (q - inject_Z f) (1 # 2) with
  | Lt => f
  | Gt => f + 1
  | Eq => if Z.even f then f else f + 1
  end.

(** ** Floats

    [mean] and [round(2)] work on [float64].  A float is kept as the rational
    number it denotes, and every operation on floats is the exact operation
    followed by [fl], the rounding to the nearest float: a significand of 53
    bits, ties to the even significand.  The exponent range is not modelled:
    a 64-bit integer, a count of rows and their quotient are far inside
    it. *)

(** For [q > 0], the exponent [k] with [2^k <= q < 2^(k+1)]. *)
Definition ilog2 (q : Q) : Z :=
  let d := Z.log2 (Qnum q) - Z.log2 (Z.pos (Qden q)) in
  if Qle_bool (2 ^ d) q then d else d - 1.

Definition fl (q : Q) : Q :=
  let q := Qred q in
  match Qcompare q 0 with
  | Eq => 0%Q
  | Gt =>
      let e := ilog2 q - 52 in
      Qred (inject_Z (round_half_even (q * 2 ^ (- e))) * 2 ^ e)
  | Lt =>
      let e := ilog2 (- q) - 52 in
      Qred (- (inject_Z (round_half_even (- q * 2 ^ (- e))) * 2 ^ e))
  end.

(** The sum of a group as [groupby(...).mean()] accumulates it: the marks
    as floats, added one by one with a running compensation. *)
Fixpoint kahan (sumx compensation : Q) (values : list Q) : Q :=
  match values with
  | [] => sumx
  | val :: values' =>
      let y := fl (val - compensation) in
      let t := fl (sumx + y) in
      kahan t (fl (fl (t - sumx) - y)) values'
  end.

(** [mean] of the marks of a group: the sum divided by the number of
    rows. *)
Definition mean (l : list Z) : Q :=
  fl (kahan 0 0 ((fun z => fl (inject_Z z)) <$> l)
      / fl (inject_Z (Z.of_nat (length l)))).

(** [round(2)] of a float: times a hundred, to the nearest integer, ties to
    even, and divided by a hundred. *)
Definition round2 (x : Q) : Q :=
  fl (inject_Z (round_half_even (fl (x * 100))) / 100).

(** [Series.round(2)]: integers are left as they are. *)
Definition round (n : number) : number :=
  match n with
  | NInt z => NInt z
  | NFloat q => NFloat (round2 q)
  end.

Definition reduce (choice : agg) (l : list Z) : number :=
  match choice with
  | Average => NFloat (mean l)
  | Max => NInt (max l)
  | Min => NInt (min l)
  | Count => NInt (count l)
  end.

(** [agg_map[agg_choice]]. *)
Definition agg_map (filtered : list MarkRecord) (choice : agg)
    : list (string * number) :=
  (fun g => (g.1, reduce choice g.2)) <$> groupby_marks filtered.

Definition result_series (filtered : list MarkRecord) (choice : agg)
    : list (string * number) :=
  (fun kv => (kv.1, round kv.2)) <$> agg_map filtered choice.


(** The order of [sort_values] on the [date] column: the order of Python
    on strings. *)
Definition date_le (r1 r2 : MarkRecord) : Prop :=
  String.le (r_date r1) (r_date r2).

#[global] Instance date_le_dec : RelDecision date_le.
Proof. intros r1 r2. unfold date_le. apply _. Defined.

(** [sort_values("date")] and [sort_values(by="date", ascending=False)].
    Rows with the same date come in an order that pandas does not fix. *)
Definition sort_values_date (ascending : bool) (df : list MarkRecord)
    : list MarkRecord :=
  if ascending then merge_sort date_le df
  else merge_sort (flip date_le) df.

(** ** Main dashboard *)

Section Dashboard.

(** [pd.to_datetime] on one cell of the [date] column: the calendar day
    of the timestamp, [None] when pandas cannot parse the string. *)
Variable to_datetime : string -> option Date.

(** The trend block: the points of the line chart. *)
Definition trend_points (filtered : list MarkRecord) : option (list (Date * Z)) :=
  let trend := sort_values_date true filtered in
  dates ← mapM to_datetime (r_date <$> trend);
  Some (zip dates (r_marks <$> trend)).

Definition trend_block (filtered : list MarkRecord) (student : string)
    : script unit :=
  emit (st_subheader ("Marks trend for " +:+ student));;
  match trend_points filtered with
  | Some points =>
      emit (st_pyplot (line_chart points "Date" "Marks" (0, 100)))
  | None => raise "ValueError"
  end.

(** The [else] branch of [if df.empty]. *)
Definition dashboard_body (df : list MarkRecord) (sel : selection)
    : script unit :=
  emit (st_subheader "All Records");;
  emit (st_dataframe (sort_values_date false df));;
  let filtered := apply_filters df (subj_filter sel) (student_filter sel) in
  match filtered with
  | [] => emit (st_warning "No data after applying filters.")
  | _ =>
      let choice := agg_name (agg_choice sel) in
      let series := result_series filtered (agg_choice sel) in
      emit (st_subheader (choice +:+ " marks by subject"));;
      emit (st_table series choice);;
      (if show_chart sel
       then emit (st_pyplot (bar_chart series choice "Subject"
                               (choice +:+ " by Subject")))
       else mret tt);;
      (if bool_decide (student_filter sel <> "All")
       then trend_block filtered (student_filter sel)
       else mret tt)
  end.

(** The block from [st.header("📊 Dashboard")] on. *)
Definition dashboard (df : DataFrame) (sel : selection) : option (script unit) :=
  if empty df then
    Some (emit (st_header "📊 Dashboard");;
          emit (st_info "No records yet. Add student marks from the left panel."))
  else
    rows ← records df;
    Some (emit (st_header "📊 Dashboard");; dashboard_body rows sel).

(** The (date, marks) pairs of some rows, in the order of the rows. *)
Definition date_marks (rows : list MarkRecord) : option (list (Date * Z)) :=
  mapM (fun r => d ← to_datetime (r_date r); Some (d, r_marks r)) rows.

(** The rows that hold a date as the record writer stores it, which
    [pd.to_datetime] reads back. *)
Definition iso_dated (r : MarkRecord) : Prop :=
  exists d, date_valid d /\ r_date r = isoformat d
            /\ to_datetime (r_date r) = Some d.

Definition parsed (r : MarkRecord) : Date :=
  default (mkDate 0 0 0) (to_datetime (r_date r)).

(** The claim as the specification has it: the trend shows all the
    (date, marks) pairs of the student. *)
Definition trend_shows_all_of_student (df : list MarkRecord)
    (subj student : string) : Prop :=
  exists points pairs,
    trend_points (apply_filters df subj student) = Some points
    /\ date_marks (filter (fun r => r_name r = student) df) = Some pairs
    /\ points ≡ₚ pairs.

(** The claim as the specification has it: the points of the trend come
    in the order of the calendar. *)
Definition trend_is_chronological (filtered : list MarkRecord) : Prop :=
  exists points,
    trend_points filtered = Some points
    /\ StronglySorted (fun p1 p2 : Date * Z => chronological p1.1 p2.1) points.

End Dashboard.

(** ** Export *)

Definition string_of_Z (n : Z) : string := NilZero.string_of_int (Z.to_int n).

(** The text that [to_csv] writes for a cell. *)
Definition cell_text (v : value) : string :=
  match v with
  | VStr s => s
  | VInt n => string_of_Z n
  | VNone => ""
  end.

Definition comma : ascii := "044"%char.
Definition dquote : ascii := "034"%char.
Definition LF : ascii := "010"%char.
Definition CR : ascii := "013"%char.

(** The characters for which the CSV writer quotes a field under
    [QUOTE_MINIMAL]: the delimiter, the quote character, and the characters
    of the line terminator, which [to_csv] sets to the line feed.  A
    carriage return alone does not make the writer quote a field. *)
Definition special (c : ascii) : bool :=
  bool_decide (c = comma) || bool_decide (c = dquote)
  || bool_decide (c = LF).

Fixpoint needs_quotes (s : string) : bool :=
  match s with
  | EmptyString => false
  | String c s' => special c || needs_quotes s'
  end.

(** Inside a quoted field every quote character is doubled. *)
Fixpoint escape (s : string) : string :=
  match s with
  | EmptyString => EmptyString
  | String c s' =>
      if bool_decide (c = dquote)
      then String dquote (String dquote (escape s'))
      else String c (escape s')
  end.

(** One field under [QUOTE_MINIMAL]. *)
Definition csv_field (s : string) : string :=
  if needs_quotes s
  then String dquote (escape s +:+ String dquote EmptyString)
  else s.

Fixpoint join_fields (fields : list string) : string :=
  match fields with
  | [] => EmptyString
  | [f] => csv_field f
  | f :: fields' => csv_field f +:+ String comma (join_fields fields')
  end.

(** [writerow]: a row of one empty field is written as a pair of quotes;
    the line ends with the line terminator. *)
Definition csv_row (fields : list string) : string :=
  match fields with
  | [EmptyString] => String dquote (String dquote (String LF EmptyString))
  | _ => join_fields fields +:+ String LF EmptyString
  end.

Definition columns (df : DataFrame) : list string :=
  match df with
  | [] => []
  | r :: _ => r.*1
  end.

Fixpoint concat_lines (lines : list string) : string :=
  match lines with
  | [] => EmptyString
  | l :: lines' => l +:+ concat_lines lines'
  end.

(** [df.to_csv(index=False)]: the header row, then one line per record. *)
Definition to_csv (df : DataFrame) : string :=
  csv_row (columns df)
  +:+ concat_lines ((fun r => csv_row (cell_text <$> r.*2)) <$> df).

(** The block under [st.header("Export")]. *)
Definition export (df : DataFrame) : script unit :=
  emit (st_header "Export");;
  if negb (empty df)
  then emit (st_download_button "Download CSV" (to_csv df)
               "student_marks.csv" "text/csv")
  else mret tt.

Definition is_download (u : ui) : bool :=
  match u with st_download_button _ _ _ _ => true | _ => false end.

(** Modelled from the spec: the re-parsing of the exported CSV, which the
    repository does not contain ("exporting the full record set and
    re-parsing the CSV must reproduce the same set of records").  The reader
    splits the text into lines of fields the way the reader of Python's
    [csv] module does in its default dialect: fields are separated by
    commas; outside quotes a line ends at a line feed, at a carriage return,
    or at a carriage return followed by a line feed; a field that starts
    with a quote runs to its closing quote and may hold commas and line
    breaks, and a doubled quote inside it stands for one quote; a quote
    inside a field that did not start with one is an ordinary character, and
    so is what follows a closing quote; a line without any character gives
    a line without fields. *)
Inductive csv_state :=
| RowStart
| AfterCR
| FieldStart
| Unquoted (field : string)
| Quoted (field : string)
| QuoteSeen (field : string).

Definition snoc (s : string) (c : ascii) : string := s +:+ String c EmptyString.

Definition line_break (c : ascii) : bool :=
  bool_decide (c = LF) || bool_decide (c = CR).

(** Modelled from the spec: where the reader stands after a line break: a
    line feed right after a carriage return belongs to the same break. *)
Definition next_row (c : ascii) : csv_state :=
  if bool_decide (c = CR) then AfterCR else RowStart.

(** Modelled from the spec: the first character of a field; [st] tells
    whether the field follows a comma or starts a line. *)
Definition begin_field (st : csv_state) (row : list string)
    (rows : list (list string)) (c : ascii)
    : csv_state * list string * list (list string) :=
  if line_break c then
    (next_row c, [],
     (rows ++ [match st with
               | FieldStart => (row ++ [EmptyString])%list
               | _ => []
               end])%list)
  else if bool_decide (c = dquote) then (Quoted EmptyString, row, rows)
  else if bool_decide (c = comma)
  then (FieldStart, (row ++ [EmptyString])%list, rows)
  else (Unquoted (String c EmptyString), row, rows).

(** Modelled from the spec: one step of the reader per character; [row]
    holds the fields of the current line and [rows] the lines read so far. *)
Definition csv_step (st : csv_state) (row : list string)
    (rows : list (list string)) (c : ascii)
    : csv_state * list string * list (list string) :=
  match st with
  | RowStart | FieldStart => begin_field st row rows c
  | AfterCR =>
      if bool_decide (c = LF) then (RowStart, row, rows)
      else begin_field RowStart row rows c
  | Unquoted f =>
      if bool_decide (c = comma) then (FieldStart, (row ++ [f])%list, rows)
      else if line_break c
      then (next_row c, [], (rows ++ [row ++ [f]])%list)
      else (Unquoted (snoc f c), row, rows)
  | Quoted f =>
      if bool_decide (c = dquote) then (QuoteSeen f, row, rows)
      else (Quoted (snoc f c), row, rows)
  | QuoteSeen f =>
      if bool_decide (c = dquote) then (Quoted (snoc f dquote), row, rows)
      else if bool_decide (c = comma)
      then (FieldStart, (row ++ [f])%list, rows)
      else if line_break c
      then (next_row c, [], (rows ++ [row ++ [f]])%list)
      else (Unquoted (snoc f c), row, rows)
  end.

(** Modelled from the spec: the end of the text closes the line that is
    being read, if any. *)
Definition csv_end (st : csv_state) (row : list string)
    (rows : list (list string)) : list (list string) :=
  match st with
  | RowStart | AfterCR => rows
  | FieldStart => (rows ++ [row ++ [EmptyString]])%list
  | Unquoted f | Quoted f | QuoteSeen f => (rows ++ [row ++ [f]])%list
  end.

Fixpoint parse_csv (st : csv_state) (row : list string)
    (rows : list (list string)) (s : string) : list (list string) :=
  match s with
  | EmptyString => csv_end st row rows
  | String c s' =>
      let '(st', row', rows') := csv_step st row rows c in
      parse_csv st' row' rows' s'
  end.

Definition Z_of_string (s : string) : option Z :=
  Z.of_int <$> NilZero.int_of_string s.

(** Modelled from the spec: a line read back as a MarkRecord row, field for
    field, by the types of the data model: [marks] is an integer, the other
    five fields are strings. *)
Definition read_record (fields : list string) : option pydict :=
  match fields with
  | [i; n; s; sj; m; d] =>
      m' ← Z_of_string m;
      Some [("id", VStr i); ("name", VStr n); ("student_id", VStr s);
            ("subject", VStr sj); ("marks", VInt m'); ("date", VStr d)]
  | _ => None
  end.

(** Modelled from the spec: the CSV re-parsed into a frame; the first line
    must be the header row of the MarkRecord field names. *)
Definition read_csv (s : string) : option DataFrame :=
  match parse_csv RowStart [] [] s with
  | header :: body =>
      if decide (header = mark_columns) then mapM read_record body else None
  | [] => None
  end.

(** Where the reader stands after a field [f] that ends with the
    terminator [t]. *)
Definition after_field (t : ascii) (f : string) (row : list string)
    (rows : list (list string)) (rest : string) : list (list string) :=
  if bool_decide (t = comma)
  then parse_csv FieldStart (row ++ [f])%list rows rest
  else parse_csv RowStart [] (rows ++ [row ++ [f]])%list rest.

Definition terminator (t : ascii) : Prop := t = comma \/ t = LF.

Definition at_start (st : csv_state) : Prop := st = RowStart \/ st = FieldStart.

(** Strings without a carriage return. *)
Fixpoint contains (c : ascii) (s : string) : bool :=
  match s with
  | EmptyString => false
  | String c' s' => bool_decide (c' = c) || contains c s'
  end.

Definition free_of_CR (r : MarkRecord) : Prop :=
  Forall (fun s => contains CR s = false)
    [r_id r; r_name r; r_student_id r; r_subject r; r_date r].

(** The claim as the specification has it, for a way [read] of re-parsing
    the text: the export of a frame, read back, is the frame. *)
Definition round_trips (read : string -> option DataFrame) (df : DataFrame)
    : Prop :=
  read (to_csv df) = Some df.

(** ** Store client *)

Section Firestore.

(** The library calls of the credential bootstrap; [None] stands for a
    raised exception. *)
Variables json credential app client : Type.
Variable b64decode_utf8 : string -> option string.
Variable json_loads : string -> option json.
Variable Certificate_dict : json -> option credential.
Variable Certificate_file : string -> option credential.

(** [firebase_admin.initialize_app(cred)]: the app that it makes and
    registers as the default app. *)
Variable initialize_app : credential -> option app.

(** [firestore.client()] for the default app. *)
Variable firestore_client : app -> option client.

(** [init_firestore]: [environ] is [os.environ], [path_exists] is
    [os.path.exists], [apps] is [firebase_admin._apps], the registry of the
    apps initialised so far, by name.  [initialize_app] and
    [firestore.client()] stand outside the [try] block like
    [Certificate(key_path)]: what they raise ends the script.
    [firestore.client()] looks the default app up in the registry, and
    raises when there is none. *)
Definition init_firestore (environ : gmap string string)
    (path_exists : string -> bool) (apps : gmap string app)
    : script client :=
  cred ←
    match environ !! "FIREBASE_CREDENTIALS" with
    | Some b64 =>
        match (json_str ← b64decode_utf8 b64;
               cred_dict ← json_loads json_str;
               Certificate_dict cred_dict) with
        | Some cred => mret cred
        | None =>
            emit (st_error "Couldn't load Firebase credentials from FIREBASE_CREDENTIALS env var.");;
            stop
        end
    | None =>
        let key_path := "firebase_key.json" in
        (if negb (path_exists key_path) then
           emit (st_error "firebase_key.json not found. Place your Firebase service account JSON file in the project folder (or set FIREBASE_CREDENTIALS env var).");;
           stop
         else mret tt);;
        match Certificate_file key_path with
        | Some cred => mret cred
        | None => raise "ValueError"
        end
    end;
  apps ←
    (if bool_decide (apps = ∅) then
       match initialize_app cred with
       | Some default_app => mret (<["[DEFAULT]" := default_app]> apps)
       | None => raise "ValueError"
       end
     else mret apps);
  match apps !! "[DEFAULT]" ≫= firestore_client with
  | Some c => mret c
  | None => raise "ValueError"
  end.

(** The client that the last three lines of [init_firestore] make once the
    credentials [cred] are loaded; [None] when one of the calls raises. *)
Definition default_client (cred : credential) (apps : gmap string app)
    : option client :=
  apps ←
    (if bool_decide (apps = ∅) then
       default_app ← initialize_app cred;
       Some (<["[DEFAULT]" := default_app]> apps)
     else Some apps);
  default_app ← apps !! "[DEFAULT]";
  firestore_client default_app.

(** The credentials that the environment supplies: the variable is set,
    and its value decodes, parses and makes a certificate. *)
Definition environment_credentials (environ : gmap string string)
    : option credential :=
  b64 ← environ !! "FIREBASE_CREDENTIALS";
  json_str ← b64decode_utf8 b64;
  cred_dict ← json_loads json_str;
  Certificate_dict cred_dict.

End Firestore.

(** ** Reading dates of the form YYYY-MM-DD *)

Definition digit_value (c : ascii) : option Z :=
  let n := Z.of_N (N_of_ascii c) in
  if (48 <=? n) && (n <=? 57) then Some (n - 48) else None.

Fixpoint digits_value (acc : Z) (s : string) : option Z :=
  match s with
  | EmptyString => Some acc
  | String c s' => d ← digit_value c; digits_value (10 * acc + d) s'
  end.

#[global] Instance date_valid_dec (d : Date) : Decision (date_valid d).
Proof. unfold date_valid. apply _. Defined.

(** [pd.to_datetime] on the strings of ten characters that [isoformat]
    writes, YYYY-MM-DD: the day they name.  This is the reading of the dates
    that the record writer stores.  [pd.to_datetime] reads other strings as
    well (2024-1-1, or the empty string as a missing time), which this
    function does not: it is applied only where it agrees with pandas, to
    dates of the ten-character form and to a string that pandas rejects
    too. *)
Definition iso_to_datetime (s : string) : option Date :=
  if decide (String.length s = 10%nat) then
    y ← digits_value 0 (substring 0 4 s);
    m ← digits_value 0 (substring 5 2 s);
    d ← digits_value 0 (substring 8 2 s);
    let date := mkDate y m d in
    if bool_decide (substring 4 1 s = "-") && bool_decide (substring 7 1 s = "-")
       && bool_decide (date_valid date)
    then Some date else None
  else None.

Fixpoint split_on (sep : ascii) (acc : string) (s : string) : list string :=
  match s with
  | EmptyString => [acc]
  | String c s' =>
      if bool_decide (c = sep) then acc :: split_on sep EmptyString s'
      else split_on sep (String.app acc (String c EmptyString)) s'
  end.

(** [pd.to_datetime] on year-month-day strings in which the month and the
    day may be written with one digit, as in 2024-9-1, which pandas reads
    like 2024-09-01.  It is applied to such strings only. *)
Definition ymd_to_datetime (s : string) : option Date :=
  match split_on "-" EmptyString s with
  | [ys; ms; ds] =>
      y ← digits_value 0 ys;
      m ← digits_value 0 ms;
      d ← digits_value 0 ds;
      let date := mkDate y m d in
      if bool_decide (String.length ys = 4%nat)
         && bool_decide (1 <= String.length ms <= 2)%nat
         && bool_decide (1 <= String.length ds <= 2)%nat
         && bool_decide (date_valid date)
      then Some date else None
  | _ => None
  end.

(** The record set of the example of the specification. *)
Definition example_records : list MarkRecord :=
  [mkRecord "r1" "Alice" "" "Math" 80 "2024-01-01";
   mkRecord "r2" "Alice" "" "Math" 90 "2024-02-01";
   mkRecord "r3" "Bob" "" "Math" 70 "2024-01-15"].

(** A student with records in two subjects. *)
Definition two_subject_records : list MarkRecord :=
  [mkRecord "r1" "Alice" "" "Math" 80 "2024-01-01";
   mkRecord "r2" "Alice" "" "Science" 90 "2024-02-01"].

(** Records of one student whose dates are written without leading
    zeros. *)
Definition unpadded_date_records : list MarkRecord :=
  [mkRecord "r1" "Alice" "" "Math" 80 "2024-9-1";
   mkRecord "r2" "Alice" "" "Math" 90 "2024-10-1"].

(** Records whose fields hold commas, quotes and a line break. *)
Definition awkward_records : list MarkRecord :=
  [mkRecord "d1" "Doe, Jane" "" "Math" 80 "2024-01-01";
   mkRecord "d2" (String dquote "Al" +:+ String dquote " B") "007"
     (String LF "Art") 0 "2024-02-01"].

(** A record whose name holds a carriage return. *)
Definition carriage_return_records : list MarkRecord :=
  [mkRecord "d1" (String "a" (String CR "b")) "" "Math" 80 "2024-01-01"].

(** A document as the form writes it for a submission without a student
    identifier, and the same document with a null stored for it. *)
Definition blank_student_id : collection :=
  {[ "d1" := new_document "Ann" "" "Math" 80 "2024-01-01" ]}.

Definition null_student_id : collection :=
  {[ "d1" := <["student_id" := VNone]>
               (new_document "Ann" "" "Math" 80 "2024-01-01") ]}.



(** ** Select boxes *)

(** The options of "Filter by Subject":
    [["All"] + sorted(df['subject'].unique().tolist())]. *)
Definition subject_options (df : list MarkRecord) : list string :=
  "All" :: merge_sort String.le (remove_dups (r_subject <$> df)).

(** The options of "Filter by Student":
    [["All"] + sorted(df['name'].unique().tolist())]. *)
Definition student_options (df : list MarkRecord) : list string :=
  "All" :: merge_sort String.le (remove_dups (r_name <$> df)).

Definition is_bar_chart (u : ui) : bool :=
  match u with st_pyplot (bar_chart _ _ _ _) => true | _ => false end.

Definition is_line_chart (u : ui) : bool :=
  match u with st_pyplot (line_chart _ _ _ _) => true | _ => false end.

Definition is_table (u : ui) : bool :=
  match u with st_table _ _ => true | _ => false end.

(** ** The whole script *)

(** What one run of the script puts on the page: the title, the header of
    the sidebar, what the form writes into the sidebar, what the other
    blocks write into the main panel, and the caption. *)
Inductive element :=
| st_title (body : string)
| st_sidebar_header (body : string)
| st_sidebar (u : ui)
| st_main (u : ui)
| st_caption (body : string).

Section App.

Variables json credential app client : Type.
Variable b64decode_utf8 : string -> option string.
Variable json_loads : string -> option json.
Variable Certificate_dict : json -> option credential.
Variable Certificate_file : string -> option credential.
Variable initialize_app : credential -> option app.
Variable firestore_client : app -> option client.
Variable to_datetime : string -> option Date.

(** One run of [app.py], top to bottom, on the collection [db]: the
    collection after the run, the page, and how the run ended.  [doc_id] is
    the identifier that [document()] generates if the run adds a record;
    [f] and [sel] are the values of the widgets.  [None] as for
    [dashboard]. *)
Definition run_app (environ : gmap string string) (path_exists : string -> bool)
    (apps : gmap string app) (db : collection) (doc_id : string)
    (f : form_input) (sel : selection)
    : option (collection * list element * outcome unit) :=
  let page := [st_title "🎓 Cloud-Based Student Marks Dashboard"] in
  match init_firestore json credential app client b64decode_utf8 json_loads
          Certificate_dict Certificate_file initialize_app firestore_client environ path_exists apps with
  | (out, Stopped) => Some (db, (page ++ (st_main <$> out))%list, Stopped)
  | (out, Raised exn) => Some (db, (page ++ (st_main <$> out))%list, Raised exn)
  | (out, Done _) =>
      let page :=
        (page ++ (st_main <$> out)
         ++ [st_sidebar_header "Add / Manage Marks"])%list in
      match entry_form db doc_id f with
      | (out, Stopped) => Some (db, (page ++ (st_sidebar <$> out))%list, Stopped)
      | (out, Raised exn) => Some (db, (page ++ (st_sidebar <$> out))%list, Raised exn)
      | (out, Done db') =>
          let page := (page ++ (st_sidebar <$> out))%list in
          let df := fetch_all db' in
          shown ← dashboard to_datetime df sel;
          match shown with
          | (out, Stopped) => Some (db', (page ++ (st_main <$> out))%list, Stopped)
          | (out, Raised exn) =>
              Some (db', (page ++ (st_main <$> out))%list, Raised exn)
          | (out, Done _) =>
              let page := (page ++ (st_main <$> out))%list in
              match export df with
              | (out, Done _) =>
                  Some (db',
                        (page ++ (st_main <$> out)
                         ++ [st_caption "Tip: Keep firebase_key.json in project folder for local testing. Do NOT commit it to GitHub. Use Streamlit secrets for deployment."])%list,
                        Done tt)
              | (out, Stopped) => Some (db', (page ++ (st_main <$> out))%list, Stopped)
              | (out, Raised exn) =>
                  Some (db', (page ++ (st_main <$> out))%list, Raised exn)
              end
          end
      end
  end.

End App.

(** ** Collections written through the form *)

(** A document as the form stores it: the five attributes, with a name
    and a subject that are not empty and the date in the form of
    [isoformat]. *)
Definition form_document (data : document) : Prop :=
  exists n s sj m d,
    n <> "" /\ sj <> "" /\ date_valid d
    /\ data = new_document n s sj m (isoformat d).

(** A collection in which every document is one that the form stored. *)
Definition form_written (db : collection) : Prop :=
  map_Forall (fun _ data => form_document data) db.

(** The row of the frame for a document that the form stored. *)
Definition form_record (doc_id n s sj : string) (m : Z) (d : Date)
    : MarkRecord :=
  mkRecord doc_id n s sj m (isoformat d).

(** A row of the frame as the form makes it: a name and a subject that are
    not empty, and a date in the form of [isoformat]. *)
Definition form_row (r : MarkRecord) : Prop :=
  r_name r <> "" /\ r_subject r <> ""
  /\ exists d, date_valid d /\ r_date r = isoformat d.

(** The value of a result as a rational. *)
Definition number_Q (n : number) : Q :=
  match n with
  | NInt z => inject_Z z
  | NFloat q => q
  end.

(** The second argument of [data.get] for each attribute that [fetch_all]
    reads. *)
Definition attribute_default (key : string) : value :=
  if decide (key = "marks") then VInt 0 else VStr "".

(** * Properties *)

(** ** Record reader *)

Lemma elem_of_stream (db : collection) i data :
  (i, data) ∈ stream db <-> db !! i = Some data.
Proof. unfold stream. apply elem_of_map_to_list. Qed.

Lemma fetch_row_inj d1 d2 : fetch_row d1 = fetch_row d2 -> d1.1 = d2.1.
Proof. unfold fetch_row. intros H. by simplify_eq. Qed.

Lemma fetch_all_id (db : collection) r :
  r ∈ fetch_all db -> exists i, cell "id" r = VStr i /\ is_Some (db !! i).
Proof.
  unfold fetch_all. intros ([i data] & -> & Hin)%list_elem_of_fmap.
  apply elem_of_stream in Hin. exists i. split; [reflexivity | eauto].
Qed.

Lemma length_fetch_all (db : collection) :
  length (fetch_all db) = size db.
Proof. unfold fetch_all, stream. by rewrite length_fmap, length_map_to_list. Qed.

Lemma NoDup_fetch_all (db : collection) :
  NoDup (fetch_all db).
Proof.
  unfold fetch_all, stream.
  apply (NoDup_fmap_2_strong fetch_row); [| apply NoDup_map_to_list].
  intros [i1 d1] [i2 d2] H1%elem_of_map_to_list H2%elem_of_map_to_list Heq.
  apply fetch_row_inj in Heq. simpl in Heq. subst i2. congruence.
Qed.

(** ** Record writer *)

Lemma fetch_all_add_mark (db : collection) doc_id n s sj m d :
  db !! doc_id = None ->
  fetch_all (add_mark db doc_id n s sj m d)
  ≡ₚ fetch_row (doc_id, new_document n s sj m d) :: fetch_all db.
Proof.
  intros Hfresh. unfold fetch_all, add_mark, stream.
  rewrite map_to_list_insert by done. reflexivity.
Qed.

(** C1.  A valid submission, stored under an identifier that the store did
    not hold before, adds exactly one document, with the submitted name,
    student id, subject, marks and date; every other document is left as it
    was, and a full read afterwards is the full read before plus exactly one
    row, which carries the submitted values under the new identifier. *)
Theorem write_then_read_one_new_record
    (db : collection) (doc_id : string) (f : form_input) :
  valid_submission f ->
  db !! doc_id = None ->
  exists db',
    entry_form db doc_id f = ([st_success "Record added successfully!"], Done db')
    /\ db' !! doc_id =
         Some (new_document (name f) (student_id f) (subject f) (marks f)
                 (isoformat (date f)))
    /\ (forall i, i <> doc_id -> db' !! i = db !! i)
    /\ size db' = S (size db)
    /\ fetch_all db' ≡ₚ submitted_row doc_id f :: fetch_all db
    /\ submitted_row doc_id f ∉ fetch_all db.
Proof.
  intros (Hsub & Hname & Hsubject & _ & _) Hfresh.
  eexists. unfold entry_form. rewrite Hsub.
  rewrite !bool_decide_eq_false_2 by done. simpl.
  split; [reflexivity |]. unfold add_mark.
  split; [by rewrite lookup_insert_eq |].
  split; [by intros i Hi; rewrite lookup_insert_ne |].
  split; [by rewrite map_size_insert_None |].
  split.
  - apply fetch_all_add_mark, Hfresh.
  - intros (i & Hid & Hsome)%fetch_all_id. simpl in Hid.
    injection Hid as <-. rewrite Hfresh in Hsome. by destruct Hsome.
Qed.

Lemma write_then_read_one_new_record_witness :
  exists db',
    entry_form ∅ "doc1" (mkForm "Alice" "S1" "Math" 80 (mkDate 2024 1 1) true)
    = ([st_success "Record added successfully!"], Done db')
    /\ fetch_all db' ≡ₚ
         [("id", VStr "doc1"); ("name", VStr "Alice"); ("student_id", VStr "S1");
          ("subject", VStr "Math"); ("marks", VInt 80);
          ("date", VStr "2024-01-01")] :: fetch_all ∅.
Proof.
  destruct (write_then_read_one_new_record ∅ "doc1"
              (mkForm "Alice" "S1" "Math" 80 (mkDate 2024 1 1) true))
    as (db' & Hrun & _ & _ & _ & Hread & _).
  - repeat split; simpl; try done; try lia.
  - reflexivity.
  - exists db'. split; [exact Hrun | exact Hread].
Defined.

(** C3.  A submission with an empty name or an empty subject writes no
    record: the collection is the one before the submission, and the only
    thing the form shows is the warning. *)
Theorem empty_field_writes_nothing
    (db : collection) (doc_id : string) (f : form_input) :
  submitted f = true ->
  name f = "" \/ subject f = "" ->
  exists db',
    entry_form db doc_id f =
      ([st_warning "Please enter at least Student Name and Subject."], Done db')
    /\ db' = db
    /\ length (fetch_all db') = length (fetch_all db).
Proof.
  intros Hsub Hempty. exists db. unfold entry_form. rewrite Hsub.
  assert (bool_decide (name f = "") || bool_decide (subject f = "") = true) as ->.
  { destruct Hempty as [H | H]; rewrite H; [done |].
    by rewrite orb_true_r. }
  done.
Qed.

Lemma empty_field_writes_nothing_witness :
  exists db',
    entry_form ∅ "doc1" (mkForm "" "S1" "Math" 80 (mkDate 2024 1 1) true) =
      ([st_warning "Please enter at least Student Name and Subject."], Done db')
    /\ db' = ∅
    /\ length (fetch_all db') = length (fetch_all ∅).
Proof.
  apply (empty_field_writes_nothing ∅ "doc1"
           (mkForm "" "S1" "Math" 80 (mkDate 2024 1 1) true)).
  - reflexivity.
  - left. reflexivity.
Defined.

(** C7.  The record reader builds one row per stored document, whatever the
    document holds: as many rows as documents, no two of them equal, a row
    for every document and no row without one.  In the row of a document the
    cell [id] is the document's identifier; [name], [student_id], [subject]
    and [date] hold the stored attribute, or the empty string when the
    document lacks it; [marks] holds the stored attribute, or zero when the
    document lacks it. *)
Theorem fetch_all_one_row_per_document_with_defaults
    (db : collection) :
  length (fetch_all db) = size db
  /\ NoDup (fetch_all db)
  /\ (forall r, r ∈ fetch_all db <->
                exists i data, db !! i = Some data /\ r = fetch_row (i, data))
  /\ (forall i data,
        let r := fetch_row (i, data) in
        cell "id" r = VStr i
        /\ (forall key, key ∈ ["name"; "student_id"; "subject"; "date"] ->
                        cell key r = match data !! key with
                                     | Some v => v
                                     | None => VStr ""
                                     end)
        /\ cell "marks" r = match data !! "marks" with
                            | Some v => v
                            | None => VInt 0
                            end).
Proof.
  split; [apply length_fetch_all |].
  split; [apply NoDup_fetch_all |].
  split.
  - intros r. unfold fetch_all. rewrite list_elem_of_fmap. split.
    + intros ([i data] & -> & Hin%elem_of_stream). eauto.
    + intros (i & data & Hin%elem_of_stream & ->). eauto.
  - intros i data r. subst r. split; [reflexivity |]. split.
    + intros key Hkey. unfold fetch_row, get; simpl.
      repeat (apply elem_of_cons in Hkey as [-> | Hkey];
              [by destruct (data !! _) |]).
      by apply elem_of_nil in Hkey.
    + unfold fetch_row, get; simpl. by destruct (data !! _).
Qed.

(** C10.  Every row of the record reader has the six attributes [id],
    [name], [student_id], [subject], [marks], [date], each once and in this
    order, whatever the stored document carries; an attribute of a document
    other than the five that are read leaves no trace in the frame. *)
Theorem fetch_all_rows_have_six_attributes
    (db : collection) :
  Forall (fun r => r.*1 = ["id"; "name"; "student_id"; "subject"; "marks"; "date"])
    (fetch_all db)
  /\ forall i data key v,
       key ∉ document_attributes ->
       fetch_row (i, <[key := v]> data) = fetch_row (i, data).
Proof.
  split.
  - unfold fetch_all. apply Forall_fmap, Forall_forall. by intros [i data] _.
  - intros i data key v Hkey. unfold fetch_row, get; simpl.
    unfold document_attributes in Hkey.
    rewrite !lookup_insert_ne; [done | | | | |];
      intros ->; apply Hkey; set_solver.
Qed.

(** ** Export *)

Lemma fetch_all_nil (db : collection) :
  fetch_all db = [] <-> db = ∅.
Proof.
  rewrite <- length_zero_iff_nil, length_fetch_all. apply map_size_empty_iff.
Qed.

(** C9.  The export block offers the download exactly when the frame that
    was read has at least one row, that is, when the collection holds at
    least one document; then the file is the CSV text of the whole frame.
    On an empty collection the block shows its header and nothing else. *)
Theorem download_offered_iff_records (db : collection) :
  let df := fetch_all db in
  (existsb is_download (export df).1 = true <-> db <> ∅)
  /\ (db <> ∅ ->
      export df =
        ([st_header "Export";
          st_download_button "Download CSV" (to_csv df) "student_marks.csv"
            "text/csv"], Done tt))
  /\ (db = ∅ -> export df = ([st_header "Export"], Done tt)).
Proof.
  intros df. subst df. pose proof (fetch_all_nil db) as Hnil.
  unfold export. destruct (fetch_all db) as [| r df]; simpl.
  - assert (db = ∅) by (by apply Hnil). split; [| done].
    split; [done | contradiction].
  - assert (db <> ∅) by (intros ?%Hnil; done). split; [| done].
    split; done.
Qed.

(** ** Store client *)

(** C8.  When the environment supplies no credentials that can be read
    and no file [firebase_key.json] exists, [init_firestore] shows an
    error message and halts the script; no client is returned. *)
Theorem init_firestore_without_credentials_halts
    {json credential app client : Type}
    (b64decode_utf8 : string -> option string)
    (json_loads : string -> option json)
    (Certificate_dict : json -> option credential)
    (Certificate_file : string -> option credential)
    (initialize_app : credential -> option app)
    (firestore_client : app -> option client)
    (environ : gmap string string) (path_exists : string -> bool)
    (apps : gmap string app) :
  environment_credentials json credential b64decode_utf8 json_loads
    Certificate_dict environ = None ->
  path_exists "firebase_key.json" = false ->
  exists message,
    init_firestore json credential app client b64decode_utf8 json_loads
      Certificate_dict Certificate_file initialize_app firestore_client
      environ path_exists apps
    = ([st_error message], Stopped).
Proof.
  unfold environment_credentials, init_firestore. intros Henv Hfile.
  destruct (environ !! "FIREBASE_CREDENTIALS") as [b64 |]; simpl in *.
  - rewrite Henv. eexists. reflexivity.
  - rewrite Hfile. eexists. reflexivity.
Qed.

Lemma init_firestore_without_credentials_halts_witness :
  exists message,
    init_firestore unit unit unit unit (fun _ => None) (fun _ => None)
      (fun _ => None) (fun _ => None) (fun _ => None) (fun _ => None)
      {[ "FIREBASE_CREDENTIALS" := "not base64" ]} (fun _ => false) ∅
    = ([st_error message], Stopped).
Proof.
  apply (init_firestore_without_credentials_halts (json := unit)
           (credential := unit) (app := unit) (client := unit)); reflexivity.
Defined.

(** ** Aggregator: filters *)

Lemma records_of_record (df : DataFrame) rows :
  records df = Some rows -> df = of_record <$> rows.
Proof.
  unfold records. intros Hrows%mapM_Some_1.
  induction Hrows as [| r row df rows Hr _ IH]; [done |].
  simpl. f_equal; [| exact IH]. clear IH.
  unfold as_record in Hr. case_decide as Hkeys; [| done].
  destruct r as [| [k1 v1] [| [k2 v2] [| [k3 v3] [| [k4 v4] [| [k5 v5]
    [| [k6 v6] [| ? ?]]]]]]]; try done.
  simpl in Hkeys, Hr. injection Hkeys as -> -> -> -> -> ->.
  destruct v1, v2, v3, v4, v5, v6; try done. by injection Hr as <-.
Qed.

Lemma filter_none {A} (P : A -> Prop) `{!forall x, Decision (P x)} (l : list A) :
  Forall (fun x => ~ P x) l -> filter P l = [].
Proof.
  induction 1 as [| x l Hx _ IH]; [done |].
  by rewrite filter_cons_False.
Qed.

Lemma apply_filters_absent_subject rows subj student :
  subj <> "All" -> subj ∉ r_subject <$> rows ->
  apply_filters rows subj student = [].
Proof.
  intros Hall Habsent. unfold apply_filters.
  rewrite (bool_decide_eq_true_2 (subj <> "All")) by done.
  assert (filter (fun r => r_subject r = subj) rows = []) as ->.
  { apply filter_none, Forall_forall. intros r Hr <-.
    apply Habsent, list_elem_of_fmap. eauto. }
  by case_bool_decide.
Qed.

(** C4.  On a frame with records, a selection whose filters leave no row
    (such as a subject that no record has) makes the dashboard end
    normally, and show, after the table of all records, the warning that no
    data is left, with no aggregation table and no chart. *)
Theorem filters_without_match_show_no_data
    (to_datetime : string -> option Date)
    (df : DataFrame) (rows : list MarkRecord) (sel : selection) :
  df <> [] ->
  records df = Some rows ->
  (subj_filter sel <> "All" /\ subj_filter sel ∉ r_subject <$> rows)
  \/ apply_filters rows (subj_filter sel) (student_filter sel) = [] ->
  apply_filters rows (subj_filter sel) (student_filter sel) = []
  /\ dashboard to_datetime df sel =
       Some ([st_header "📊 Dashboard";
              st_subheader "All Records";
              st_dataframe (sort_values_date false rows);
              st_warning "No data after applying filters."], Done tt).
Proof.
  intros Hdf Hrows Hsel.
  assert (apply_filters rows (subj_filter sel) (student_filter sel) = [])
    as Hnone.
  { destruct Hsel as [[? ?] | ?]; [| done].
    by apply apply_filters_absent_subject. }
  split; [exact Hnone |].
  unfold dashboard. destruct df as [| r df]; [done |].
  cbn [empty]. rewrite Hrows. cbn [mbind option_bind].
  unfold dashboard_body. rewrite Hnone. reflexivity.
Qed.

Lemma filters_without_match_show_no_data_witness :
  apply_filters example_records "Physics" "All" = []
  /\ dashboard iso_to_datetime (of_record <$> example_records)
       (mkSelection "Physics" "All" Average true) =
       Some ([st_header "📊 Dashboard";
              st_subheader "All Records";
              st_dataframe (sort_values_date false example_records);
              st_warning "No data after applying filters."], Done tt).
Proof.
  apply (filters_without_match_show_no_data iso_to_datetime
           (of_record <$> example_records) example_records
           (mkSelection "Physics" "All" Average true)).
  - discriminate.
  - reflexivity.
  - left. split; [discriminate |]. simpl.
    rewrite !elem_of_cons, elem_of_nil. intros [H | [H | [H | H]]]; done.
Defined.


(** ** Aggregator: reductions *)

Lemma elem_of_group_keys (df : list MarkRecord) key :
  key ∈ group_keys df <-> key ∈ r_subject <$> df.
Proof.
  unfold group_keys. rewrite merge_sort_Permutation.
  apply elem_of_remove_dups.
Qed.

Lemma NoDup_group_keys (df : list MarkRecord) : NoDup (group_keys df).
Proof.
  unfold group_keys. rewrite merge_sort_Permutation. apply NoDup_remove_dups.
Qed.

Lemma group_nonempty (df : list MarkRecord) key :
  key ∈ r_subject <$> df -> group df key <> [].
Proof.
  intros (r & -> & Hr)%list_elem_of_fmap. unfold group.
  intros Hnil%fmap_nil_inv.
  by apply (filter_nil_not_elem_of _ _ r) in Hnil.
Qed.

Lemma max_spec (l : list Z) :
  l <> [] -> max l ∈ l /\ Forall (fun x => x <= max l) l.
Proof.
  destruct l as [| x l]; [done | intros _]. unfold max.
  induction l as [| y l [IHin IHall]]; simpl.
  - split; [left | by repeat constructor].
  - apply Forall_cons in IHall as [Hx Hl]. split.
    + destruct (Z.max_spec y (foldr Z.max x l)) as [[_ ->] | [_ ->]].
      * apply elem_of_cons in IHin as [-> | Hin]; [left |].
        by do 2 right.
      * right; left.
    + repeat apply Forall_cons_2; [lia | lia |].
      eapply Forall_impl; [exact Hl |]. simpl. lia.
Qed.

Lemma min_spec (l : list Z) :
  l <> [] -> min l ∈ l /\ Forall (fun x => min l <= x) l.
Proof.
  destruct l as [| x l]; [done | intros _]. unfold min.
  induction l as [| y l [IHin IHall]]; simpl.
  - split; [left | by repeat constructor].
  - apply Forall_cons in IHall as [Hx Hl]. split.
    + destruct (Z.min_spec y (foldr Z.min x l)) as [[_ ->] | [_ ->]].
      * right; left.
      * apply elem_of_cons in IHin as [-> | Hin]; [left |].
        by do 2 right.
    + repeat apply Forall_cons_2; [lia | lia |].
      eapply Forall_impl; [exact Hl |]. simpl. lia.
Qed.

Lemma sum_list_bounds (l : list Z) lo hi :
  Forall (fun x => lo <= x <= hi) l ->
  lo * Z.of_nat (length l) <= sum_list l <= hi * Z.of_nat (length l).
Proof.
  induction 1 as [| x l Hx _ IH]; simpl; [lia |].
  rewrite Nat2Z.inj_succ. lia.
Qed.

Lemma round_half_even_lower (q : Q) : Qfloor q <= round_half_even q.
Proof. unfold round_half_even. repeat case_match; lia. Qed.

Lemma round_half_even_upper (q : Q) (b : Z) :
  (q <= inject_Z b)%Q -> round_half_even q <= b.
Proof.
  intros Hq. pose proof (Qfloor_le q) as Hfloor.
  assert (Qfloor q <= b) as Hfb.
  { rewrite <- (Qfloor_Z b). by apply Qfloor_resp_le. }
  assert ((1 # 2 <= q - inject_Z (Qfloor q))%Q -> Qfloor q + 1 <= b) as Hstep.
  { intros Hhalf. apply Z.le_succ_l. rewrite Zlt_Qlt.
    eapply Qlt_le_trans; [| exact Hq].
    apply (Qplus_lt_l _ _ (- inject_Z (Qfloor q))).
    rewrite Qplus_opp_r. eapply Qlt_le_trans; [| exact Hhalf]. done. }
  unfold round_half_even.
  destruct (Qcompare_spec (q - inject_Z (Qfloor q)) (1 # 2)) as [He | Hlt | Hgt].
  - case_match; [done |]. apply Hstep. rewrite He. apply Qle_refl.
  - done.
  - apply Hstep. by apply Qlt_le_weak.
Qed.

Lemma round_half_even_error (q : Q) :
  (inject_Z (round_half_even q) - q <= 1 # 2
   /\ q - inject_Z (round_half_even q) <= 1 # 2)%Q.
Proof.
  pose proof (Qfloor_le q) as Hlo. pose proof (Qlt_floor q) as Hhi.
  rewrite inject_Z_plus in Hhi. change (inject_Z 1) with 1%Q in Hhi.
  unfold round_half_even.
  destruct (Qcompare_spec (q - inject_Z (Qfloor q)) (1 # 2)) as [He | Hlt | Hgt].
  - destruct (Z.even (Qfloor q)); rewrite ?inject_Z_plus;
      change (inject_Z 1) with 1%Q; split; lra.
  - split; lra.
  - rewrite inject_Z_plus. change (inject_Z 1) with 1%Q. split; lra.
Qed.

#[global] Instance round_half_even_comp : Proper (Qeq ==> eq) round_half_even.
Proof.
  intros p q Hpq. unfold round_half_even.
  rewrite (Qfloor_comp _ _ Hpq).
  assert (p - inject_Z (Qfloor q) == q - inject_Z (Qfloor q))%Q as ->
    by (by rewrite Hpq).
  reflexivity.
Qed.

(** ** Floats *)

Lemma two_neq_0 : ~ (2 == 0)%Q.
Proof. done. Qed.

Lemma Qpower2_pos (e : Z) : (0 < 2 ^ e)%Q.
Proof. by apply Qpower_0_lt. Qed.

Lemma Qpower2_Z (n : Z) : 0 <= n -> (2 ^ n == inject_Z (2 ^ n))%Q.
Proof. intros Hn. by rewrite Zpower_Qpower. Qed.

Lemma ilog2_lower (q : Q) : (0 < q)%Q -> (2 ^ ilog2 q <= q)%Q.
Proof.
  intros Hq. unfold ilog2.
  destruct (Qle_bool _ q) eqn:Hle; [by apply Qle_bool_iff |].
  destruct q as [a b]. simpl Qnum in *. simpl Qden in *.
  assert (0 < a) as Ha by (unfold Qlt in Hq; simpl in Hq; lia).
  pose proof (Z.log2_spec a Ha) as [Hla _].
  pose proof (Z.log2_spec (Z.pos b) eq_refl) as [_ Hlb].
  pose proof (Z.log2_nonneg a) as Hna.
  pose proof (Z.log2_nonneg (Z.pos b)) as Hnb.
  replace (Z.log2 a - Z.log2 (Z.pos b) - 1)
    with (Z.log2 a - Z.succ (Z.log2 (Z.pos b))) by lia.
  rewrite Qpower_minus by done.
  rewrite !Qpower2_Z by lia.
  apply Qle_shift_div_r.
  - rewrite <- (Zlt_Qlt 0). lia.
  - set (X := 2 ^ Z.log2 a) in *. set (Y := 2 ^ Z.succ _) in *.
    unfold Qle, Qmult, inject_Z; cbn [Qnum Qden]. nia.
Qed.

Lemma fl_comp (p q : Q) : (p == q)%Q -> fl p = fl q.
Proof. intros H. unfold fl. by rewrite (Qred_complete _ _ H). Qed.

#[global] Instance fl_proper : Proper (Qeq ==> Qeq) fl.
Proof. intros p q H. by rewrite (fl_comp p q H). Qed.

Lemma Qred_fl (q : Q) : Qred (fl q) = fl q.
Proof.
  unfold fl. cbv zeta. destruct (Qred q ?= 0)%Q; [done | |];
    apply Qred_complete, Qred_correct.
Qed.

(** The float nearest to a positive number: its significand, an integer
    of 53 bits, times a power of two. *)
Lemma fl_positive (q : Q) :
  (0 < q)%Q ->
  (fl q == inject_Z (round_half_even (q * 2 ^ (- (ilog2 (Qred q) - 52))))
           * 2 ^ (ilog2 (Qred q) - 52))%Q.
Proof.
  intros Hq. unfold fl. cbv zeta.
  assert ((Qred q ?= 0)%Q = Gt) as ->.
  { apply Qgt_alt. by rewrite Qred_correct. }
  rewrite Qred_correct. by rewrite (Qred_correct q) at 1.
Qed.

Lemma fl_0 (q : Q) : (q == 0)%Q -> fl q = 0%Q.
Proof. intros Hq. by rewrite (fl_comp q 0 Hq). Qed.

(** Rounding to a float keeps a number between two integers that are
    floats themselves. *)
Lemma fl_bounds (q : Q) (lo hi : Z) :
  0 <= lo -> hi < 2 ^ 53 ->
  (inject_Z lo <= q <= inject_Z hi)%Q ->
  (inject_Z lo <= fl q <= inject_Z hi)%Q.
Proof.
  intros Hlo Hhi [Hl Hh].
  destruct (Qlt_le_dec 0 q) as [Hq | Hq].
  - rewrite (fl_positive q Hq).
    set (e := ilog2 (Qred q) - 52).
    assert (e <= 0) as He.
    { assert (ilog2 (Qred q) < 53); [| lia].
      apply (Qpower_lt_compat_l_inv 2); [| done].
      eapply Qle_lt_trans; [apply ilog2_lower; by rewrite Qred_correct |].
      rewrite Qred_correct. eapply Qle_lt_trans; [exact Hh |].
      rewrite Qpower2_Z by done. by rewrite <- Zlt_Qlt. }
    assert (2 ^ e == / inject_Z (2 ^ (- e)))%Q as ->.
    { rewrite <- Qpower2_Z by lia. rewrite <- Qpower_opp.
      by rewrite Z.opp_involutive. }
    rewrite (Qpower2_Z (- e)) by lia.
    set (s := 2 ^ (- e)).
    assert (0 < s) as Hs by (apply Z.pow_pos_nonneg; lia).
    assert (0 < inject_Z s)%Q as Hs' by (by rewrite <- (Zlt_Qlt 0)).
    split.
    + apply Qle_shift_div_l; [done |].
      rewrite <- inject_Z_mult, <- Zle_Qle.
      etrans; [| apply round_half_even_lower].
      rewrite <- (Qfloor_Z (lo * s)). apply Qfloor_resp_le.
      rewrite inject_Z_mult. apply Qmult_le_compat_r; [done |].
      by apply Qlt_le_weak.
    + apply Qle_shift_div_r; [done |].
      rewrite <- inject_Z_mult, <- Zle_Qle.
      apply round_half_even_upper.
      rewrite inject_Z_mult. apply Qmult_le_compat_r; [done |].
      by apply Qlt_le_weak.
  - assert (q == 0)%Q as Hq0.
    { apply Qle_antisym; [done |].
      eapply Qle_trans; [| exact Hl]. by rewrite <- (Zle_Qle 0). }
    rewrite (fl_0 q Hq0). rewrite Hq0 in Hl, Hh. done.
Qed.

(** An integer below [2^53] is a float. *)
Lemma fl_exact (q : Q) (z : Z) :
  0 <= z < 2 ^ 53 -> (q == inject_Z z)%Q -> (fl q == inject_Z z)%Q.
Proof.
  intros [Hz0 Hz] Hq.
  apply Qle_antisym; apply (fl_bounds q z z); try done;
    rewrite Hq; split; apply Qle_refl.
Qed.

(** The relative error of rounding to a float is at most [2^-53]. *)
Lemma fl_error (q : Q) :
  (0 < q)%Q ->
  (fl q - q <= q * (1 # 9007199254740992)
   /\ q - fl q <= q * (1 # 9007199254740992))%Q.
Proof.
  intros Hq. rewrite (fl_positive q Hq).
  assert (2 ^ ilog2 (Qred q) <= q)%Q as Hlog.
  { rewrite <- (Qred_correct q) at 2. apply ilog2_lower.
    by rewrite Qred_correct. }
  set (k := ilog2 (Qred q)) in *.
  destruct (round_half_even_error (q * 2 ^ (- (k - 52)))) as [H1 H2].
  set (m := inject_Z (round_half_even _)) in *.
  assert (2 ^ (- (k - 52)) == / 2 ^ (k - 52))%Q as HB by apply Qpower_opp.
  assert (2 ^ (k - 52) == 2 ^ k * (1 # 4503599627370496))%Q as HA.
  { unfold Z.sub. by rewrite Qpower_plus. }
  pose proof (Qpower2_pos (k - 52)) as HApos.
  pose proof (Qpower2_pos k) as HLpos.
  rewrite HB in H1, H2.
  set (A := (2 ^ (k - 52))%Q) in *. set (L := (2 ^ k)%Q) in *.
  assert (m * A - q <= A * (1 # 2) /\ q - m * A <= A * (1 # 2))%Q as [H3 H4].
  { assert (~ A == 0)%Q as HA0.
    { intros HA0. rewrite HA0 in HApos. by apply Qlt_irrefl in HApos. }
    split.
    - apply (Qmult_le_compat_r _ _ A) in H1; [| by apply Qlt_le_weak].
      assert ((m - q * / A) * A == m * A - q)%Q as Heq by (by field).
      rewrite Heq in H1. lra.
    - apply (Qmult_le_compat_r _ _ A) in H2; [| by apply Qlt_le_weak].
      assert ((q * / A - m) * A == q - m * A)%Q as Heq by (by field).
      rewrite Heq in H2. lra. }
  split; lra.
Qed.

(** ** Aggregator: the average *)

Lemma sum_list_nonneg (l : list Z) :
  Forall (fun x => 0 <= x) l -> 0 <= sum_list l.
Proof. induction 1; simpl; lia. Qed.

(** Below [2^53] the compensated sum of non-negative integers is their
    sum: every step is exact, and the compensation stays zero. *)
Lemma kahan_exact (l : list Z) : forall (sumx compensation : Q) (s : Z),
  (sumx == inject_Z s)%Q -> (compensation == 0)%Q -> 0 <= s ->
  Forall (fun x => 0 <= x) l -> s + sum_list l < 2 ^ 53 ->
  (kahan sumx compensation ((fun z => fl (inject_Z z)) <$> l)
   == inject_Z (s + sum_list l))%Q.
Proof.
  induction l as [| x l IH]; intros sumx comp s Hsum Hcomp Hs Hl Hlt; simpl.
  - by rewrite Z.add_0_r.
  - apply Forall_cons in Hl as [Hx Hl].
    pose proof (sum_list_nonneg l Hl) as Hnn. simpl in Hlt.
    assert (fl (inject_Z x) == inject_Z x)%Q as Hval
      by (apply fl_exact; [lia | reflexivity]).
    assert (fl (fl (inject_Z x) - comp) == inject_Z x)%Q as Hy.
    { apply fl_exact; [lia |]. rewrite Hval, Hcomp. ring. }
    assert (fl (sumx + fl (fl (inject_Z x) - comp)) == inject_Z (s + x))%Q
      as Ht.
    { apply fl_exact; [lia |]. rewrite Hy, Hsum, inject_Z_plus. ring. }
    rewrite Z.add_assoc. apply IH; try done; try lia.
    rewrite fl_0; [done |].
    rewrite Ht, Hy. rewrite (fl_exact _ x); [ring | lia |].
    rewrite Hsum, inject_Z_plus. ring.
Qed.

Lemma mean_exact (l : list Z) :
  Forall (fun x => 0 <= x) l ->
  sum_list l < 2 ^ 53 -> Z.of_nat (length l) < 2 ^ 53 ->
  mean l = fl (inject_Z (sum_list l) / inject_Z (Z.of_nat (length l))).
Proof.
  intros Hl Hsum Hlen. unfold mean. apply fl_comp.
  rewrite (kahan_exact l 0 0 0); try done.
  rewrite (fl_exact _ (Z.of_nat (length l))); [done | lia | done].
Qed.

Lemma exact_mean_bounds (l : list Z) lo hi :
  l <> [] -> Forall (fun x => lo <= x <= hi) l ->
  (inject_Z lo <= inject_Z (sum_list l) / inject_Z (Z.of_nat (length l))
   <= inject_Z hi)%Q.
Proof.
  intros Hne Hall. apply sum_list_bounds in Hall.
  assert (0 < inject_Z (Z.of_nat (length l)))%Q as Hn.
  { rewrite <- (Zlt_Qlt 0). destruct l; [done | simpl; lia]. }
  split.
  - apply Qle_shift_div_l; [done |]. rewrite <- inject_Z_mult, <- Zle_Qle. lia.
  - apply Qle_shift_div_r; [done |]. rewrite <- inject_Z_mult, <- Zle_Qle. lia.
Qed.

Lemma mean_bounds (l : list Z) lo hi :
  l <> [] -> 0 <= lo -> Forall (fun x => lo <= x <= hi) l ->
  hi * Z.of_nat (length l) < 2 ^ 53 -> Z.of_nat (length l) < 2 ^ 53 ->
  (inject_Z lo <= mean l <= inject_Z hi)%Q.
Proof.
  intros Hne Hlo Hall Hhi Hlen.
  pose proof (sum_list_bounds l lo hi Hall) as Hsum.
  assert (0 < Z.of_nat (length l)) as Hpos by (destruct l; [done | simpl; lia]).
  rewrite mean_exact; [| | lia | done].
  - apply fl_bounds; [done | nia |]. by apply exact_mean_bounds.
  - eapply Forall_impl; [exact Hall |]. simpl. lia.
Qed.

Lemma round2_bounds (q : Q) lo hi :
  0 <= lo -> 100 * hi < 2 ^ 53 ->
  (inject_Z lo <= q <= inject_Z hi)%Q ->
  (inject_Z lo <= round2 q <= inject_Z hi)%Q.
Proof.
  intros Hlo Hhi [Hl Hh].
  assert (inject_Z (100 * lo) <= fl (q * 100) <= inject_Z (100 * hi))%Q
    as [Hl' Hh'].
  { apply fl_bounds; [lia | lia |].
    rewrite !inject_Z_mult, !(Qmult_comm (inject_Z 100)).
    split; by apply Qmult_le_compat_r. }
  assert (100 * lo <= round_half_even (fl (q * 100))) as Hrl.
  { etrans; [| apply round_half_even_lower].
    rewrite <- (Qfloor_Z (100 * lo)). by apply Qfloor_resp_le. }
  assert (round_half_even (fl (q * 100)) <= 100 * hi) as Hrh
    by (by apply round_half_even_upper).
  unfold round2. set (r := round_half_even _) in *.
  apply fl_bounds; [done | lia |].
  split.
  - apply Qle_shift_div_l; [done |].
    change 100%Q with (inject_Z 100).
    rewrite <- inject_Z_mult, <- Zle_Qle. lia.
  - apply Qle_shift_div_r; [done |].
    change 100%Q with (inject_Z 100).
    rewrite <- inject_Z_mult, <- Zle_Qle. lia.
Qed.

Lemma fl_error_nonneg (q : Q) :
  (0 <= q)%Q ->
  (fl q - q <= q * (1 # 9007199254740992)
   /\ q - fl q <= q * (1 # 9007199254740992))%Q.
Proof.
  intros Hq. destruct (Qlt_le_dec 0 q) as [Hpos | Hle].
  - by apply fl_error.
  - assert (q == 0)%Q as Hq0 by (by apply Qle_antisym).
    rewrite (fl_0 q Hq0), Hq0. split; lra.
Qed.

(** [round(2)] gives the float of a number of hundredths, and that number is
    within half a hundredth of the argument, up to the rounding of the
    multiplication. *)
Lemma round2_near (x : Q) :
  (0 <= x)%Q ->
  let r := inject_Z (round_half_even (fl (x * 100))) in
  (r / 100 - x <= (1 # 200) + x * (1 # 9007199254740992)
   /\ x - r / 100 <= (1 # 200) + x * (1 # 9007199254740992))%Q.
Proof.
  intros Hx r. subst r.
  destruct (round_half_even_error (fl (x * 100))) as [H1 H2].
  destruct (fl_error_nonneg (x * 100)) as [H3 H4]; [lra |].
  set (r := inject_Z _) in *. set (y := fl _) in *.
  assert (r / 100 == r * (1 # 100))%Q as -> by (by field).
  split; lra.
Qed.

Lemma round_half_even_near (y : Q) (k : Z) :
  (y - inject_Z k < 1 # 2)%Q -> (inject_Z k - y < 1 # 2)%Q ->
  round_half_even y = k.
Proof.
  intros H1 H2. destruct (round_half_even_error y) as [H3 H4].
  assert (inject_Z (round_half_even y - k) < inject_Z 1
          /\ inject_Z (k - round_half_even y) < inject_Z 1)%Q as [H5 H6].
  { unfold Z.sub. rewrite !inject_Z_plus, !inject_Z_opp.
    change (inject_Z 1) with 1%Q. split; lra. }
  rewrite <- Zlt_Qlt in H5, H6. lia.
Qed.

(** A float that already is the float of a number of hundredths is left as
    it is. *)
Lemma round2_idempotent (k : Z) :
  0 <= k < 2 ^ 50 ->
  round2 (fl (inject_Z k / 100)) = fl (inject_Z k / 100).
Proof.
  intros [Hk0 Hk]. unfold round2.
  assert (0 <= inject_Z k)%Q as Hk0' by (by rewrite <- (Zle_Qle 0)).
  assert (inject_Z k < inject_Z (2 ^ 50))%Q as Hk' by (by rewrite <- Zlt_Qlt).
  change (inject_Z (2 ^ 50)) with (1125899906842624 # 1)%Q in Hk'.
  assert (inject_Z k / 100 == inject_Z k * (1 # 100))%Q as Hdiv by (by field).
  destruct (fl_error_nonneg (inject_Z k / 100)) as [H1 H2]; [lra |].
  set (x := fl (inject_Z k / 100)) in *.
  destruct (fl_error_nonneg (x * 100)) as [H3 H4]; [lra |].
  rewrite (round_half_even_near (fl (x * 100)) k); [done | lra | lra].
Qed.

Lemma elem_of_result_series (filtered : list MarkRecord) choice key v :
  (key, v) ∈ result_series filtered choice <->
  key ∈ r_subject <$> filtered /\ v = round (reduce choice (group filtered key)).
Proof.
  unfold result_series, agg_map, groupby_marks.
  rewrite <- !list_fmap_compose, list_elem_of_fmap, <- elem_of_group_keys.
  split.
  - intros (k & [= -> ->] & Hk). done.
  - intros [Hk ->]. by exists key.
Qed.

Lemma result_series_keys (filtered : list MarkRecord) choice :
  (result_series filtered choice).*1 = group_keys filtered.
Proof.
  unfold result_series, agg_map, groupby_marks.
  rewrite <- !list_fmap_compose. apply list_fmap_id.
Qed.

(** The example of the specification: the average by subject of the
    example record set is 80.0 for Math. *)
Example example_average :
  result_series example_records Average = [("Math", NFloat 80%Q)].
Proof. vm_compute. reflexivity. Qed.







(** ** Dates as strings *)

Lemma digit_compare (a b : Z) :
  0 <= a < 10 -> 0 <= b < 10 ->
  Stdlib.Strings.Ascii.compare (digit a) (digit b) = (a ?= b).
Proof.
  intros Ha Hb. unfold Stdlib.Strings.Ascii.compare, digit.
  rewrite !N_ascii_embedding by lia.
  rewrite Z2N.inj_compare by lia. apply Z.add_compare_mono_l.
Qed.

Lemma decimal4 (n : Z) :
  0 <= n < 10000 ->
  n = 1000 * (n / 1000 mod 10) + 100 * (n / 100 mod 10)
      + 10 * (n / 10 mod 10) + n mod 10.
Proof. intros Hn. Z.div_mod_to_equations. lia. Qed.

Lemma decimal2 (n : Z) :
  0 <= n < 100 -> n = 10 * (n / 10 mod 10) + n mod 10.
Proof. intros Hn. Z.div_mod_to_equations. lia. Qed.

Lemma decimal_digit (n : Z) : 0 <= n mod 10 < 10.
Proof. apply Z.mod_pos_bound. lia. Qed.

Lemma date_valid_bounds (d : Date) :
  date_valid d ->
  0 <= year d < 10000 /\ 0 <= month d < 100 /\ 0 <= day d < 100.
Proof.
  intros (Hy & Hm & Hd). unfold days_in_month in Hd.
  repeat case_match; lia.
Qed.

(** On the strings that [isoformat] writes, the order of strings is the
    order of the calendar. *)
Lemma isoformat_le (d1 d2 : Date) :
  date_valid d1 -> date_valid d2 ->
  String.le (isoformat d1) (isoformat d2) <-> chronological d1 d2.
Proof.
  intros (Hy1 & Hm1 & Hd1)%date_valid_bounds (Hy2 & Hm2 & Hd2)%date_valid_bounds.
  unfold chronological. destruct d1 as [y1 m1 d1], d2 as [y2 m2 d2].
  simpl in *.
  pose proof (decimal4 y1 Hy1). pose proof (decimal4 y2 Hy2).
  pose proof (decimal2 m1 Hm1). pose proof (decimal2 m2 Hm2).
  pose proof (decimal2 d1 Hd1). pose proof (decimal2 d2 Hd2).
  pose proof (decimal_digit (y1 / 1000)). pose proof (decimal_digit (y1 / 100)).
  pose proof (decimal_digit (y1 / 10)). pose proof (decimal_digit y1).
  pose proof (decimal_digit (y2 / 1000)). pose proof (decimal_digit (y2 / 100)).
  pose proof (decimal_digit (y2 / 10)). pose proof (decimal_digit y2).
  pose proof (decimal_digit (m1 / 10)). pose proof (decimal_digit m1).
  pose proof (decimal_digit (m2 / 10)). pose proof (decimal_digit m2).
  pose proof (decimal_digit (d1 / 10)). pose proof (decimal_digit d1).
  pose proof (decimal_digit (d2 / 10)). pose proof (decimal_digit d2).
  unfold String.le, String.leb, isoformat, pad4, pad2; simpl.
  rewrite !digit_compare by done.
  repeat match goal with
         | |- context [?a ?= ?b] => destruct (Z.compare_spec a b)
         end; simpl; split; (done || lia).
Qed.

(** ** Aggregator: trend *)

#[global] Instance date_le_trans : Transitive date_le.
Proof. intros r1 r2 r3. unfold date_le. apply transitivity. Qed.

#[global] Instance date_le_total : Total date_le.
Proof. intros r1 r2. unfold date_le. apply total, _. Qed.

Lemma apply_filters_filter (df : list MarkRecord) subj student :
  apply_filters df subj student =
  filter (fun r => (student = "All" \/ r_name r = student)
                   /\ (subj = "All" \/ r_subject r = subj)) df.
Proof.
  unfold apply_filters.
  case_bool_decide as Hsubj; case_bool_decide as Hstudent.
  - rewrite list_filter_filter. apply list_filter_iff. intros r. tauto.
  - apply list_filter_iff. intros r. tauto.
  - apply list_filter_iff. intros r. tauto.
  - induction df as [| r df IH]; [done |].
    rewrite filter_cons_True by auto. by f_equal.
Qed.

Lemma StronglySorted_fmap_elem_of {A B} (f : A -> B) (R1 : relation A)
    (R2 : relation B) (l : list A) :
  (forall x y, x ∈ l -> y ∈ l -> R1 x y -> R2 (f x) (f y)) ->
  StronglySorted R1 l -> StronglySorted R2 (f <$> l).
Proof.
  intros Hf Hsorted. induction Hsorted as [| x l _ IH Hx]; simpl.
  - constructor.
  - constructor.
    + apply IH. intros y z Hy Hz. apply Hf; by right.
    + apply Forall_fmap, Forall_forall. intros y Hy.
      rewrite Forall_forall in Hx. apply Hf; [left | by right | auto].
Qed.

Lemma iso_dated_parsed to_datetime r :
  iso_dated to_datetime r ->
  to_datetime (r_date r) = Some (parsed to_datetime r)
  /\ date_valid (parsed to_datetime r)
  /\ r_date r = isoformat (parsed to_datetime r).
Proof. intros (d & Hvalid & Hiso & Hparse). unfold parsed. by rewrite Hparse. Qed.

Lemma date_marks_parsed to_datetime rows :
  Forall (iso_dated to_datetime) rows ->
  date_marks to_datetime rows
  = Some ((fun r => (parsed to_datetime r, r_marks r)) <$> rows).
Proof.
  intros Hrows. apply mapM_Some_2, Forall2_fmap_r, Forall_Forall2_diag.
  eapply Forall_impl; [exact Hrows |].
  intros r (Hparse & _)%iso_dated_parsed. simpl. by rewrite Hparse.
Qed.

Lemma trend_points_parsed to_datetime rows :
  Forall (iso_dated to_datetime) rows ->
  trend_points to_datetime rows =
    Some ((fun r => (parsed to_datetime r, r_marks r))
            <$> sort_values_date true rows).
Proof.
  intros Hrows. unfold trend_points.
  assert (Forall (iso_dated to_datetime) (sort_values_date true rows))
    as Hsorted.
  { unfold sort_values_date. by rewrite merge_sort_Permutation. }
  assert (mapM to_datetime (r_date <$> sort_values_date true rows)
          = Some (parsed to_datetime <$> sort_values_date true rows)) as ->.
  { apply mapM_Some_2, Forall2_fmap, Forall_Forall2_diag.
    eapply Forall_impl; [exact Hsorted |].
    by intros r (Hparse & _)%iso_dated_parsed. }
  cbn [mbind option_bind]. f_equal.
  by rewrite zip_with_fmap_l, zip_with_fmap_r, zip_with_diag.
Qed.

Lemma sort_values_date_chronological to_datetime rows :
  Forall (iso_dated to_datetime) rows ->
  StronglySorted (fun p1 p2 : Date * Z => chronological p1.1 p2.1)
    ((fun r => (parsed to_datetime r, r_marks r))
       <$> sort_values_date true rows).
Proof.
  intros Hrows.
  apply (StronglySorted_fmap_elem_of _ date_le);
    [| apply StronglySorted_merge_sort; apply _].
  unfold sort_values_date. intros r1 r2.
  rewrite !merge_sort_Permutation. rewrite Forall_forall in Hrows.
  intros (_ & Hv1 & Hd1)%Hrows%iso_dated_parsed
         (_ & Hv2 & Hd2)%Hrows%iso_dated_parsed.
  unfold date_le. rewrite Hd1, Hd2. simpl. by apply isoformat_le.
Qed.


(** C5, as the specification states it, fails, in two ways.  With a
    subject filter besides the student filter, the trend leaves out the
    student's records of the other subjects: Alice has a Math and a Science
    record; with the filters "Math" and "Alice" the filtered set is not
    empty, and the trend holds one of her two (date, marks) pairs.  And the
    rows are sorted as strings before the dates are read: of the two dates
    2024-9-1 and 2024-10-1 the trend shows October first. *)
Lemma trend_leaves_out_subjects_and_sorts_strings :
  "Alice" <> "All"
  /\ apply_filters two_subject_records "Math" "Alice" <> []
  /\ trend_points iso_to_datetime
       (apply_filters two_subject_records "Math" "Alice")
     = Some [(mkDate 2024 1 1, 80)]
  /\ date_marks iso_to_datetime
       (filter (fun r => r_name r = "Alice") two_subject_records)
     = Some [(mkDate 2024 1 1, 80); (mkDate 2024 2 1, 90)]
  /\ ~ trend_shows_all_of_student iso_to_datetime two_subject_records
        "Math" "Alice"
  /\ apply_filters unpadded_date_records "All" "Alice" <> []
  /\ trend_points ymd_to_datetime
       (apply_filters unpadded_date_records "All" "Alice")
     = Some [(mkDate 2024 10 1, 90); (mkDate 2024 9 1, 80)]
  /\ ~ trend_is_chronological ymd_to_datetime
        (apply_filters unpadded_date_records "All" "Alice").
Proof.
  split; [discriminate |]. split; [by vm_compute |].
  assert (trend_points iso_to_datetime
            (apply_filters two_subject_records "Math" "Alice")
          = Some [(mkDate 2024 1 1, 80)]) as Htrend by (by vm_compute).
  assert (date_marks iso_to_datetime
            (filter (fun r => r_name r = "Alice") two_subject_records)
          = Some [(mkDate 2024 1 1, 80); (mkDate 2024 2 1, 90)]) as Hall
    by (by vm_compute).
  assert (trend_points ymd_to_datetime
            (apply_filters unpadded_date_records "All" "Alice")
          = Some [(mkDate 2024 10 1, 90); (mkDate 2024 9 1, 80)]) as Hunpadded
    by (by vm_compute).
  split; [exact Htrend |]. split; [exact Hall |]. split.
  { intros (points & pairs & Hpoints & Hpairs & Hperm).
    rewrite Htrend in Hpoints. rewrite Hall in Hpairs.
    injection Hpoints as <-. injection Hpairs as <-.
    by apply Permutation_length in Hperm. }
  split; [by vm_compute |]. split; [exact Hunpadded |].
  intros (points & Hpoints & Hsorted).
  rewrite Hunpadded in Hpoints. injection Hpoints as <-.
  apply StronglySorted_inv in Hsorted as [_ Hfirst].
  apply Forall_cons in Hfirst as [Hfirst _].
  unfold chronological in Hfirst. simpl in Hfirst. lia.
Qed.

(** C5, amended.  With a student filter and a non-empty filtered set
    whose dates are as the record writer stores them, the trend block ends
    normally, and the last thing it draws is the line chart of the points
    of the trend.  The points are the (date, marks) pairs of exactly the
    rows that pass both filters: the rows of the student, and of the
    selected subject when one is selected; they come sorted by date, the
    earlier first.  Without a subject filter they are all the pairs of the
    student.  On the record set of the example, the student filter "Alice"
    gives the points (2024-01-01, 80), (2024-02-01, 90). *)
Theorem trend_is_filtered_rows_by_date
    (to_datetime : string -> option Date)
    (df : list MarkRecord) (sel : selection) :
  let subj := subj_filter sel in
  let student := student_filter sel in
  let filtered := apply_filters df subj student in
  student <> "All" ->
  filtered <> [] ->
  Forall (iso_dated to_datetime) filtered ->
  exists points,
    trend_points to_datetime filtered = Some points
    /\ (dashboard_body to_datetime df sel).2 = Done tt
    /\ last (dashboard_body to_datetime df sel).1
       = Some (st_pyplot (line_chart points "Date" "Marks" (0, 100)))
    /\ (exists pairs,
          date_marks to_datetime
            (filter (fun r => r_name r = student
                              /\ (subj = "All" \/ r_subject r = subj)) df)
          = Some pairs
          /\ points ≡ₚ pairs)
    /\ StronglySorted (fun p1 p2 : Date * Z => chronological p1.1 p2.1) points
    /\ (subj = "All" -> trend_shows_all_of_student to_datetime df subj student)
    /\ trend_points iso_to_datetime (apply_filters example_records "All" "Alice")
       = Some [(mkDate 2024 1 1, 80); (mkDate 2024 2 1, 90)].
Proof.
  intros subj student filtered Hstudent Hne Hiso.
  pose proof (trend_points_parsed to_datetime filtered Hiso) as Hpoints.
  assert (filtered =
          filter (fun r => r_name r = student
                           /\ (subj = "All" \/ r_subject r = subj)) df)
    as Hfiltered.
  { unfold filtered. rewrite apply_filters_filter.
    apply list_filter_iff. intros r. tauto. }
  assert ((fun r => (parsed to_datetime r, r_marks r))
            <$> sort_values_date true filtered
          ≡ₚ (fun r => (parsed to_datetime r, r_marks r)) <$> filtered)
    as Hperm.
  { unfold sort_values_date. by rewrite merge_sort_Permutation. }
  eexists. split; [exact Hpoints |].
  assert (dashboard_body to_datetime df sel =
          ((dashboard_body to_datetime df sel).1, Done tt)
          /\ last (dashboard_body to_datetime df sel).1 =
            Some (st_pyplot
                    (line_chart
                       ((fun r => (parsed to_datetime r, r_marks r))
                          <$> sort_values_date true filtered)
                       "Date" "Marks" (0, 100)))) as [Hrun Hlast].
  { unfold dashboard_body. fold subj student filtered.
    rewrite bool_decide_eq_true_2 by done. unfold trend_block.
    rewrite Hpoints. destruct filtered as [| r rows]; [done |].
    by destruct (show_chart sel). }
  split; [by rewrite Hrun |]. split; [exact Hlast |].
  split.
  { eexists. split; [| exact Hperm].
    rewrite <- Hfiltered. by apply date_marks_parsed. }
  split; [by apply sort_values_date_chronological |].
  split; [| by vm_compute].
  intros Hsubj. do 2 eexists. split; [exact Hpoints |].
  split; [| exact Hperm].
  assert (filter (fun r => r_name r = student) df = filtered) as ->.
  { rewrite Hfiltered. apply list_filter_iff. intros r. tauto. }
  by apply date_marks_parsed.
Qed.

Lemma trend_is_filtered_rows_by_date_witness :
  exists points,
    trend_points iso_to_datetime (apply_filters example_records "Math" "Alice")
    = Some points
    /\ points = [(mkDate 2024 1 1, 80); (mkDate 2024 2 1, 90)]
    /\ StronglySorted (fun p1 p2 : Date * Z => chronological p1.1 p2.1) points.
Proof.
  destruct (trend_is_filtered_rows_by_date iso_to_datetime example_records
              (mkSelection "Math" "Alice" Average true))
    as (points & Hpoints & _ & _ & _ & Hsorted & _).
  - discriminate.
  - by vm_compute.
  - repeat constructor.
    + exists (mkDate 2024 1 1). by vm_compute.
    + exists (mkDate 2024 2 1). by vm_compute.
  - exists points. split; [exact Hpoints |]. split; [| exact Hsorted].
    vm_compute in Hpoints. by injection Hpoints as <-.
Defined.

(** ** CSV export *)

#[local] Arguments String.append !s1 s2 : simpl nomatch.

Lemma append_nil_r (s : string) : s +:+ EmptyString = s.
Proof. induction s as [| c s IH]; simpl; [done | by rewrite IH]. Qed.

Lemma append_assoc (s1 s2 s3 : string) :
  (s1 +:+ s2) +:+ s3 = s1 +:+ (s2 +:+ s3).
Proof. induction s1 as [| c s1 IH]; simpl; [done | by rewrite IH]. Qed.

Lemma snoc_append (s1 : string) (c : ascii) (s2 : string) :
  snoc s1 c +:+ s2 = s1 +:+ String c s2.
Proof. unfold snoc. by rewrite append_assoc. Qed.

Lemma special_false (c : ascii) :
  special c = false -> c <> comma /\ c <> dquote /\ c <> LF.
Proof.
  unfold special. intros H.
  repeat (apply orb_false_iff in H as [H ?]).
  by repeat split; apply (bool_decide_eq_false _).
Qed.

Lemma line_break_false (c : ascii) :
  c <> LF -> c <> CR -> line_break c = false.
Proof.
  intros Hl Hc. unfold line_break.
  by rewrite !bool_decide_eq_false_2.
Qed.

Lemma parse_unquoted (s : string) : forall acc t row rows rest,
  terminator t -> needs_quotes s = false -> contains CR s = false ->
  parse_csv (Unquoted acc) row rows (s +:+ String t rest)
  = after_field t (acc +:+ s) row rows rest.
Proof.
  induction s as [| c s IH]; intros acc t row rows rest Ht Hs Hcr;
    simpl in *.
  - rewrite append_nil_r. unfold after_field.
    destruct Ht as [-> | ->]; reflexivity.
  - apply orb_false_iff in Hs as [(Hc & Hq & Hl)%special_false Hs].
    apply orb_false_iff in Hcr as [Hcr%(bool_decide_eq_false _) Hcrs].
    rewrite bool_decide_eq_false_2, line_break_false by done.
    rewrite IH by done. by rewrite snoc_append.
Qed.

Lemma parse_quoted (s : string) : forall acc t row rows rest,
  terminator t ->
  parse_csv (Quoted acc) row rows
    (escape s +:+ String dquote (String t rest))
  = after_field t (acc +:+ s) row rows rest.
Proof.
  induction s as [| c s IH]; intros acc t row rows rest Ht; simpl.
  - rewrite append_nil_r. unfold after_field.
    destruct Ht as [-> | ->]; reflexivity.
  - case_bool_decide as Hc; simpl.
    + subst c. rewrite IH by done. by rewrite snoc_append.
    + rewrite bool_decide_eq_false_2 by done.
      rewrite IH by done. by rewrite snoc_append.
Qed.

(** A field as the writer writes it is read back as it was.  Only the
    empty field alone on its line is not: the reader takes an empty line for
    a line without fields, which is why the writer quotes that field. *)
Lemma parse_field (f : string) st t row rows rest :
  at_start st -> terminator t -> contains CR f = false ->
  (st = RowStart -> t = LF -> f <> EmptyString) ->
  parse_csv st row rows (csv_field f +:+ String t rest)
  = after_field t f row rows rest.
Proof.
  intros Hst Ht Hcr Hblank. unfold csv_field.
  destruct (needs_quotes f) eqn:Hquotes.
  - simpl. rewrite append_assoc. simpl.
    destruct Hst as [-> | ->]; simpl; by rewrite parse_quoted.
  - destruct f as [| c f]; simpl in *.
    + unfold after_field.
      destruct Hst as [-> | ->], Ht as [-> | ->]; try reflexivity.
      by destruct Hblank.
    + apply orb_false_iff in Hquotes as [(Hc & Hq & Hl)%special_false Hs].
      apply orb_false_iff in Hcr as [Hcr%(bool_decide_eq_false _) Hcrs].
      destruct Hst as [-> | ->]; simpl; unfold begin_field;
        rewrite line_break_false, !bool_decide_eq_false_2 by done;
        by rewrite parse_unquoted.
Qed.

Lemma parse_join_fields (fields : list string) : forall st row rows rest,
  at_start st -> fields <> [] ->
  (st = RowStart -> fields <> [EmptyString]) ->
  Forall (fun f => contains CR f = false) fields ->
  parse_csv st row rows (join_fields fields +:+ String LF rest)
  = parse_csv RowStart [] (rows ++ [row ++ fields])%list rest.
Proof.
  induction fields as [| f fields IH];
    intros st row rows rest Hst Hne Hblank Hcr; [done |].
  apply Forall_cons in Hcr as [Hf Hcr].
  destruct fields as [| f' fields].
  - simpl join_fields. rewrite parse_field; [reflexivity | done | by right | done |].
    intros -> _ ->. by destruct Hblank.
  - change (join_fields (f :: f' :: fields))
      with (csv_field f +:+ String comma (join_fields (f' :: fields))).
    rewrite append_assoc. simpl (String comma _ +:+ _).
    rewrite parse_field; [| done | by left | done | done].
    unfold after_field. rewrite bool_decide_eq_true_2 by done.
    rewrite IH; [by rewrite <- app_assoc | by right | done | done | done].
Qed.

Lemma parse_csv_row (fields : list string) rows rest :
  fields <> [] -> Forall (fun f => contains CR f = false) fields ->
  parse_csv RowStart [] rows (csv_row fields +:+ rest)
  = parse_csv RowStart [] (rows ++ [fields])%list rest.
Proof.
  intros Hne Hcr. unfold csv_row.
  assert (fields <> [EmptyString] ->
          parse_csv RowStart [] rows
            ((join_fields fields +:+ String LF EmptyString) +:+ rest)
          = parse_csv RowStart [] (rows ++ [fields])%list rest) as Hjoin.
  { intros Hblank. rewrite append_assoc. simpl (String LF _ +:+ _).
    rewrite parse_join_fields by (done || by left). reflexivity. }
  destruct fields as [| [| c f] [| f' fields]]; try done; by apply Hjoin.
Qed.

Lemma parse_csv_lines (lines : list (list string)) : forall rows,
  Forall (fun fields => fields <> []) lines ->
  Forall (Forall (fun f => contains CR f = false)) lines ->
  parse_csv RowStart [] rows (concat_lines (csv_row <$> lines))
  = (rows ++ lines)%list.
Proof.
  induction lines as [| fields lines IH]; intros rows Hlines Hcr; simpl.
  - by rewrite app_nil_r.
  - apply Forall_cons in Hlines as [Hfields Hlines].
    apply Forall_cons in Hcr as [Hcrf Hcr].
    rewrite parse_csv_row by done. rewrite IH by done.
    by rewrite <- app_assoc.
Qed.

Lemma Z_of_string_of_Z (n : Z) : Z_of_string (string_of_Z n) = Some n.
Proof.
  unfold Z_of_string, string_of_Z. rewrite NilZero.isi.
  - simpl. f_equal. apply DecimalZ.of_to.
  - destruct n as [| p | p]; try discriminate.
    intros [= Hp]. by apply DecimalPos.Unsigned.to_uint_nonnil in Hp.
  - destruct n as [| p | p]; try discriminate.
    intros [= Hp]. by apply DecimalPos.Unsigned.to_uint_nonnil in Hp.
Qed.

(** The decimal numeral of an integer holds digits and a sign only. *)
Lemma contains_CR_uint (d : Decimal.uint) :
  contains CR (NilEmpty.string_of_uint d) = false.
Proof. induction d; simpl; try done. Qed.

Lemma contains_CR_string_of_Z (n : Z) : contains CR (string_of_Z n) = false.
Proof.
  unfold string_of_Z, NilZero.string_of_int, NilZero.string_of_uint.
  destruct (Z.to_int n) as [d | d]; simpl.
  - destruct d; try apply (contains_CR_uint (_ d)); done.
  - destruct d; try apply (contains_CR_uint (_ d)); done.
Qed.

Lemma read_record_of_record (r : MarkRecord) :
  read_record (cell_text <$> (of_record r).*2) = Some (of_record r).
Proof.
  unfold read_record, of_record; simpl. by rewrite Z_of_string_of_Z.
Qed.

Lemma columns_of_records (rows : list MarkRecord) :
  rows <> [] -> columns (of_record <$> rows) = mark_columns.
Proof. by destruct rows. Qed.

Lemma free_of_CR_cells (r : MarkRecord) :
  free_of_CR r ->
  Forall (fun f => contains CR f = false) (cell_text <$> (of_record r).*2).
Proof.
  unfold free_of_CR, of_record. cbn [fmap list_fmap fst snd cell_text].
  rewrite !Forall_cons. intros (Hi & Hn & Hs & Hsj & Hd & _).
  repeat split; try done. apply contains_CR_string_of_Z.
Qed.

(** The lines that the reader finds in the export of typed records without
    a carriage return: the header, then the cell texts record by record. *)
Lemma parse_to_csv (rows : list MarkRecord) :
  rows <> [] -> Forall free_of_CR rows ->
  parse_csv RowStart [] [] (to_csv (of_record <$> rows))
  = mark_columns :: ((fun r => cell_text <$> r.*2) <$> (of_record <$> rows)).
Proof.
  intros Hne Hcr. unfold to_csv. rewrite columns_of_records by done.
  rewrite parse_csv_row; [| done | by repeat constructor].
  replace ((fun r : pydict => csv_row (cell_text <$> r.*2))
             <$> (of_record <$> rows))
    with (csv_row <$> ((fun r : pydict => cell_text <$> r.*2)
                         <$> (of_record <$> rows)))
    by (by rewrite <- list_fmap_compose).
  rewrite parse_csv_lines; [done | |].
  - apply Forall_fmap, Forall_fmap, Forall_forall. by intros r _.
  - apply Forall_fmap, Forall_fmap.
    eapply Forall_impl; [exact Hcr |]. apply free_of_CR_cells.
Qed.

Lemma read_csv_to_csv (rows : list MarkRecord) :
  rows <> [] -> Forall free_of_CR rows ->
  read_csv (to_csv (of_record <$> rows)) = Some (of_record <$> rows).
Proof.
  intros Hne Hcr. unfold read_csv. rewrite parse_to_csv by done.
  rewrite decide_True by done. apply mapM_Some_2.
  rewrite <- list_fmap_compose. apply Forall2_fmap, Forall_Forall2_diag.
  apply Forall_forall. intros r _. apply read_record_of_record.
Qed.

(** The claim as stated fails, in two ways.  A frame that [fetch_all]
    builds may hold a null, which is written as the empty field, like the
    empty string: the frames of [blank_student_id] and of [null_student_id]
    differ and have the same CSV text, so that no way of reading the text
    gives back both.  And a carriage return in a name is written as it is,
    without quotes, where the reader ends the line: the record comes back
    as two lines, neither of six fields. *)
Lemma csv_export_loses_nulls_and_breaks_at_carriage_return :
  fetch_all blank_student_id <> fetch_all null_student_id
  /\ to_csv (fetch_all blank_student_id) = to_csv (fetch_all null_student_id)
  /\ (forall read : string -> option DataFrame,
        ~ (round_trips read (fetch_all blank_student_id)
           /\ round_trips read (fetch_all null_student_id)))
  /\ to_csv (of_record <$> carriage_return_records)
     = "id,name,student_id,subject,marks,date" +:+ String LF
         ("d1,a" +:+ String CR ("b,,Math,80,2024-01-01" +:+ String LF ""))
  /\ parse_csv RowStart [] [] (to_csv (of_record <$> carriage_return_records))
     = [["id"; "name"; "student_id"; "subject"; "marks"; "date"];
        ["d1"; "a"]; ["b"; ""; "Math"; "80"; "2024-01-01"]]
  /\ ~ round_trips read_csv (of_record <$> carriage_return_records).
Proof.
  assert (fetch_all blank_student_id <> fetch_all null_student_id) as Hne
    by (vm_compute; discriminate).
  assert (to_csv (fetch_all blank_student_id)
          = to_csv (fetch_all null_student_id)) as Htext
    by (vm_compute; reflexivity).
  split; [exact Hne |]. split; [exact Htext |]. split.
  - intros read [H1 H2]. unfold round_trips in *.
    rewrite Htext, H2 in H1. apply (inj Some) in H1.
    apply Hne. symmetry. exact H1.
  - split; [vm_compute; reflexivity |].
    split; [vm_compute; reflexivity |].
    unfold round_trips. vm_compute. discriminate.
Qed.

(** C6, amended.  For a frame with records, whose cells hold what the
    record writer stores (strings, and an integer for the marks) and whose
    strings hold no carriage return, the CSV text begins with the header
    line of the six field names; read back, it splits into that header row
    and one line of cell texts per record, and the records rebuilt from
    those lines, field for field, are the records of the frame, in the same
    order.  Hence two such frames with the same CSV text are the same. *)
Theorem csv_export_round_trip (df : DataFrame) (rows : list MarkRecord) :
  records df = Some rows ->
  df <> [] ->
  Forall free_of_CR rows ->
  (exists body,
     to_csv df = "id,name,student_id,subject,marks,date" +:+ String LF body)
  /\ parse_csv RowStart [] [] (to_csv df)
     = ["id"; "name"; "student_id"; "subject"; "marks"; "date"]
       :: ((fun r => cell_text <$> r.*2) <$> df)
  /\ round_trips read_csv df
  /\ forall df' rows',
       records df' = Some rows' -> df' <> [] -> Forall free_of_CR rows' ->
       to_csv df' = to_csv df -> df' = df.
Proof.
  intros Hrows Hdf Hcr. pose proof (records_of_record df rows Hrows) as ->.
  assert (rows <> []) as Hne by (by intros ->).
  split; [| split; [| split]].
  - unfold to_csv. rewrite columns_of_records by done.
    eexists. reflexivity.
  - by apply parse_to_csv.
  - by apply read_csv_to_csv.
  - intros df' rows' Hrows' Hdf' Hcr' Htext.
    pose proof (records_of_record df' rows' Hrows') as ->.
    assert (rows' <> []) as Hne' by (by intros ->).
    pose proof (read_csv_to_csv rows' Hne' Hcr') as Hread'.
    rewrite Htext, read_csv_to_csv in Hread' by done.
    by injection Hread' as ->.
Qed.

Lemma csv_export_round_trip_witness :
  (exists body,
     to_csv (of_record <$> awkward_records)
     = "id,name,student_id,subject,marks,date" +:+ String LF body)
  /\ parse_csv RowStart [] [] (to_csv (of_record <$> awkward_records))
     = ["id"; "name"; "student_id"; "subject"; "marks"; "date"]
       :: ((fun r => cell_text <$> r.*2)
             <$> (of_record <$> awkward_records))
  /\ round_trips read_csv (of_record <$> awkward_records)
  /\ forall df' rows',
       records df' = Some rows' -> df' <> [] -> Forall free_of_CR rows' ->
       to_csv df' = to_csv (of_record <$> awkward_records) ->
       df' = of_record <$> awkward_records.
Proof.
  apply (csv_export_round_trip (of_record <$> awkward_records)
           awkward_records).
  - reflexivity.
  - discriminate.
  - repeat constructor.
Defined.

(** * Further properties of the script *)

(** ** Store client: every way [init_firestore] can end *)

Section Firestore_facts.

Context {json credential app client : Type}.
Variable b64decode_utf8 : string -> option string.
Variable json_loads : string -> option json.
Variable Certificate_dict : json -> option credential.
Variable Certificate_file : string -> option credential.
Variable initialize_app : credential -> option app.
Variable firestore_client : app -> option client.

(** The cases of the last three lines of [init_firestore]. *)
Local Ltac connect :=
  case_bool_decide;
  [destruct (initialize_app _) as [default_app |];
     cbn [mbind option_bind script_bind mret script_ret raise];
     [rewrite ?lookup_insert_eq | done] |];
  cbn [mbind option_bind script_bind mret script_ret raise];
  repeat case_match; simplify_eq; done.

(** How [init_firestore] ends, by cases on what it finds. *)
Lemma init_firestore_cases (environ : gmap string string)
    (path_exists : string -> bool) (apps : gmap string app) :
  (exists b64, environ !! "FIREBASE_CREDENTIALS" = Some b64
     /\ environment_credentials json credential b64decode_utf8 json_loads
          Certificate_dict environ = None
     /\ init_firestore json credential app client b64decode_utf8 json_loads
          Certificate_dict Certificate_file initialize_app firestore_client
          environ path_exists apps
        = ([st_error "Couldn't load Firebase credentials from FIREBASE_CREDENTIALS env var."],
           Stopped))
  \/ (exists cred,
        environment_credentials json credential b64decode_utf8 json_loads
          Certificate_dict environ = Some cred
        /\ init_firestore json credential app client b64decode_utf8
             json_loads Certificate_dict Certificate_file initialize_app
             firestore_client environ path_exists apps
           = ([], match default_client credential app client initialize_app
                          firestore_client cred apps with
                  | Some c => Done c
                  | None => Raised "ValueError"
                  end))
  \/ (environ !! "FIREBASE_CREDENTIALS" = None
        /\ path_exists "firebase_key.json" = false
        /\ init_firestore json credential app client b64decode_utf8
             json_loads Certificate_dict Certificate_file initialize_app
             firestore_client environ path_exists apps
           = ([st_error "firebase_key.json not found. Place your Firebase service account JSON file in the project folder (or set FIREBASE_CREDENTIALS env var)."],
              Stopped))
  \/ (environ !! "FIREBASE_CREDENTIALS" = None
        /\ path_exists "firebase_key.json" = true
        /\ Certificate_file "firebase_key.json" = None
        /\ init_firestore json credential app client b64decode_utf8
             json_loads Certificate_dict Certificate_file initialize_app
             firestore_client environ path_exists apps
           = ([], Raised "ValueError"))
  \/ (exists cred, environ !! "FIREBASE_CREDENTIALS" = None
        /\ path_exists "firebase_key.json" = true
        /\ Certificate_file "firebase_key.json" = Some cred
        /\ init_firestore json credential app client b64decode_utf8
             json_loads Certificate_dict Certificate_file initialize_app
             firestore_client environ path_exists apps
           = ([], match default_client credential app client initialize_app
                          firestore_client cred apps with
                  | Some c => Done c
                  | None => Raised "ValueError"
                  end)).
Proof.
  unfold environment_credentials, init_firestore, default_client.
  destruct (environ !! "FIREBASE_CREDENTIALS") as [b64 |] eqn:Henv; simpl.
  - destruct (b64decode_utf8 b64 ≫= _) as [cred |] eqn:Hcred; simpl.
    + right; left. exists cred. split; [done |]. connect.
    + left. exists b64. done.
  - do 2 right. destruct (path_exists "firebase_key.json") eqn:Hfile; simpl.
    + right. destruct (Certificate_file "firebase_key.json") as [cred |];
        simpl.
      * right. exists cred. repeat split; try done. connect.
      * left. repeat split; done.
    + left. done.
Qed.

(** X1.  When the environment variable is set but its value cannot be
    turned into credentials, [init_firestore] halts with the error message
    about the variable; it does not fall back to the key file, whether the
    file exists or not. *)
Theorem unreadable_environment_variable_halts
    (environ : gmap string string) (path_exists : string -> bool)
    (apps : gmap string app) (b64 : string) :
  environ !! "FIREBASE_CREDENTIALS" = Some b64 ->
  environment_credentials json credential b64decode_utf8 json_loads
       Certificate_dict environ = None ->
  init_firestore json credential app client b64decode_utf8 json_loads
    Certificate_dict Certificate_file initialize_app firestore_client
    environ path_exists apps
  = ([st_error "Couldn't load Firebase credentials from FIREBASE_CREDENTIALS env var."],
     Stopped).
Proof.
  intros Hvar Henv.
  destruct (init_firestore_cases environ path_exists apps)
    as [(? & _ & _ & Hrun) | [(cred & Hcred & _) | [(Hnone & _)
       | [(Hnone & _) | (cred & Hnone & _)]]]];
    [done | congruence ..].
Qed.

(** X2.  When [init_firestore] returns a client, it has shown nothing, and
    the client is that of the default app that was already initialised, if
    any app was; otherwise that of the app initialised with the credentials
    of the environment variable when the variable is set, and with those of
    the key file when it is not. *)
Theorem init_firestore_client
    (environ : gmap string string) (path_exists : string -> bool)
    (apps : gmap string app) (out : list ui) (c : client) :
  init_firestore json credential app client b64decode_utf8 json_loads
    Certificate_dict Certificate_file initialize_app firestore_client
    environ path_exists apps = (out, Done c) ->
  out = []
  /\ (apps <> ∅ ->
      exists default_app,
        apps !! "[DEFAULT]" = Some default_app
        /\ firestore_client default_app = Some c)
  /\ (apps = ∅ -> is_Some (environ !! "FIREBASE_CREDENTIALS") ->
      exists cred default_app,
        environment_credentials json credential b64decode_utf8 json_loads
          Certificate_dict environ = Some cred
        /\ initialize_app cred = Some default_app
        /\ firestore_client default_app = Some c)
  /\ (apps = ∅ -> environ !! "FIREBASE_CREDENTIALS" = None ->
      path_exists "firebase_key.json" = true
      /\ exists cred default_app,
           Certificate_file "firebase_key.json" = Some cred
           /\ initialize_app cred = Some default_app
           /\ firestore_client default_app = Some c).
Proof.
  intros Hrun.
  assert (forall cred,
            default_client credential app client initialize_app
              firestore_client cred apps = Some c ->
            (apps <> ∅ ->
             exists default_app,
               apps !! "[DEFAULT]" = Some default_app
               /\ firestore_client default_app = Some c)
            /\ (apps = ∅ ->
                exists default_app,
                  initialize_app cred = Some default_app
                  /\ firestore_client default_app = Some c)) as Hclient.
  { intros cred. unfold default_client. case_bool_decide as Happs.
    - subst apps. intros Hc. split; [done | intros _].
      destruct (initialize_app cred) as [default_app |]; [| done].
      cbn [mbind option_bind] in Hc. rewrite lookup_insert_eq in Hc.
      by exists default_app.
    - intros Hc. split; [intros _ | done]. cbn [mbind option_bind] in Hc.
      destruct (apps !! "[DEFAULT]") as [default_app |]; [| done].
      by exists default_app. }
  destruct (init_firestore_cases environ path_exists apps)
    as [(? & _ & _ & Hcase) | [(cred & Hcred & Hcase) | [(Hnone & _ & Hcase)
       | [(Hnone & _ & _ & Hcase) | (cred & Hnone & Hfile & Hcert & Hcase)]]]];
    rewrite Hcase in Hrun; try done.
  - destruct (default_client _ _ _ _ _ cred apps) as [c' |] eqn:Hc;
      [| done].
    injection Hrun as <- <-. destruct (Hclient cred Hc) as [Hold Hnew].
    split; [done |]. split; [exact Hold |]. split.
    + intros Happs _. destruct (Hnew Happs) as (default_app & ? & ?).
      by exists cred, default_app.
    + intros _ Hvar.
      unfold environment_credentials in Hcred. by rewrite Hvar in Hcred.
  - destruct (default_client _ _ _ _ _ cred apps) as [c' |] eqn:Hc;
      [| done].
    injection Hrun as <- <-. destruct (Hclient cred Hc) as [Hold Hnew].
    split; [done |]. split; [exact Hold |]. split.
    + intros _ [? Hvar]. congruence.
    + intros Happs _. split; [done |].
      destruct (Hnew Happs) as (default_app & ? & ?).
      by exists cred, default_app.
Qed.

(** X3.  [init_firestore] never halts without a message and never shows
    anything but that message: it halts exactly when it shows one error,
    and otherwise shows nothing.  An exception escapes exactly when the
    variable is not set and the key file exists but makes no certificate,
    or when the credentials are loaded, from the variable or else from the
    file, and the calls after them make no client: no app being registered
    [initialize_app] raises, or the registry holds no default app, or
    [firestore.client()] raises. *)
Theorem init_firestore_halts_with_message
    (environ : gmap string string) (path_exists : string -> bool)
    (apps : gmap string app) :
  let run :=
    init_firestore json credential app client b64decode_utf8 json_loads
      Certificate_dict Certificate_file initialize_app firestore_client
      environ path_exists apps in
  (run.2 = Stopped <-> exists message, run.1 = [st_error message])
  /\ (run.2 <> Stopped -> run.1 = [])
  /\ ((exists exn, run.2 = Raised exn) <->
      (environ !! "FIREBASE_CREDENTIALS" = None
       /\ path_exists "firebase_key.json" = true
       /\ Certificate_file "firebase_key.json" = None)
      \/ exists cred,
           (environment_credentials json credential b64decode_utf8
              json_loads Certificate_dict environ = Some cred
            \/ (environ !! "FIREBASE_CREDENTIALS" = None
                /\ path_exists "firebase_key.json" = true
                /\ Certificate_file "firebase_key.json" = Some cred))
           /\ ((apps = ∅ /\ initialize_app cred = None)
               \/ (apps <> ∅ /\ apps !! "[DEFAULT]" = None)
               \/ exists default_app,
                    (if bool_decide (apps = ∅)
                     then initialize_app cred
                     else apps !! "[DEFAULT]") = Some default_app
                    /\ firestore_client default_app = None)).
Proof.
  intros run. subst run.
  assert (forall cred,
            default_client credential app client initialize_app
              firestore_client cred apps = None <->
            (apps = ∅ /\ initialize_app cred = None)
            \/ (apps <> ∅ /\ apps !! "[DEFAULT]" = None)
            \/ exists default_app,
                 (if bool_decide (apps = ∅)
                  then initialize_app cred
                  else apps !! "[DEFAULT]") = Some default_app
                 /\ firestore_client default_app = None) as Hnone.
  { intros cred. unfold default_client. case_bool_decide as Happs.
    - destruct (initialize_app cred) as [default_app |];
        cbn [mbind option_bind].
      + rewrite lookup_insert_eq. cbn [mbind option_bind]. split.
        * intros Hc. do 2 right. by exists default_app.
        * intros [[_ ?] | [[? _] | (a & [= <-] & Hc)]]; done.
      + split; [intros _; by left | done].
    - cbn [mbind option_bind].
      destruct (apps !! "[DEFAULT]") as [default_app |];
        cbn [mbind option_bind].
      + split.
        * intros Hc. do 2 right. by exists default_app.
        * intros [[? _] | [[_ ?] | (a & [= <-] & Hc)]]; done.
      + split; [intros _; right; by left | done]. }
  destruct (init_firestore_cases environ path_exists apps)
    as [(? & Hvar & Hcred & Hcase) | [(cred & Hcred & Hcase)
       | [(Hvar & Hfile & Hcase)
       | [(Hvar & Hfile & Hcert & Hcase)
       | (cred & Hvar & Hfile & Hcert & Hcase)]]]];
    rewrite Hcase; cbn [fst snd].
  - split; [split; eauto |]. split; [done |]. split; [by intros [? ?] |].
    intros [(? & _) | (cred & [? | (? & _)] & _)]; congruence.
  - assert (environ !! "FIREBASE_CREDENTIALS" <> None) as Hset.
    { intros Hvar. unfold environment_credentials in Hcred.
      by rewrite Hvar in Hcred. }
    destruct (default_client _ _ _ _ _ cred apps) as [c |] eqn:Hc.
    + split; [split; [done | by intros [? ?]] |]. split; [done |].
      split; [by intros [? ?] |].
      intros [(? & _) | (cred' & [Hcred' | (? & _)] & Hfail)]; [done | | done].
      rewrite Hcred in Hcred'. injection Hcred' as <-.
      apply Hnone in Hfail. congruence.
    + split; [split; [done | by intros [? ?]] |]. split; [done |].
      split; [| by eauto]. intros _. right. exists cred.
      split; [by left | by apply Hnone].
  - split; [split; eauto |]. split; [done |]. split; [by intros [? ?] |].
    intros [(_ & ? & _) | (cred & [Hcred | (_ & ? & _)] & _)];
      [congruence | | congruence].
    unfold environment_credentials in Hcred. by rewrite Hvar in Hcred.
  - split; [split; [done | by intros [? ?]] |]. split; [done |].
    split; [intros _; by left | by eauto].
  - destruct (default_client _ _ _ _ _ cred apps) as [c |] eqn:Hc.
    + split; [split; [done | by intros [? ?]] |]. split; [done |].
      split; [by intros [? ?] |].
      intros [(_ & _ & ?) | (cred' & [Hcred' | (_ & _ & Hcert')] & Hfail)];
        [congruence | |].
      * unfold environment_credentials in Hcred'. by rewrite Hvar in Hcred'.
      * rewrite Hcert in Hcert'. injection Hcert' as <-.
        apply Hnone in Hfail. congruence.
    + split; [split; [done | by intros [? ?]] |]. split; [done |].
      split; [| by eauto]. intros _. right. exists cred.
      split; [by right | by apply Hnone].
Qed.

End Firestore_facts.

Lemma unreadable_environment_variable_halts_witness :
  init_firestore unit unit unit unit (fun _ => None) (fun _ => Some tt)
    (fun _ => Some tt) (fun _ => Some tt) (fun _ => Some tt)
    (fun _ => Some tt) {[ "FIREBASE_CREDENTIALS" := "???" ]} (fun _ => true) ∅
  = ([st_error "Couldn't load Firebase credentials from FIREBASE_CREDENTIALS env var."],
     Stopped).
Proof.
  apply (unreadable_environment_variable_halts (json := unit)
           (credential := unit) (app := unit) (client := unit)
           _ _ _ _ _ _ _ _ _ "???"); reflexivity.
Defined.

Lemma init_firestore_client_witness :
  exists out c,
    init_firestore unit nat nat nat (fun _ => Some "{}") (fun _ => Some tt)
      (fun _ => Some 1%nat) (fun _ => Some 2%nat)
      (fun cred => Some (10 + cred)%nat) (fun a => Some (100 + a)%nat)
      {[ "FIREBASE_CREDENTIALS" := "e30=" ]} (fun _ => true)
      {[ "[DEFAULT]" := 7%nat ]}
    = (out, Done c)
    /\ out = []
    /\ exists default_app,
         ({[ "[DEFAULT]" := 7%nat ]} : gmap string nat) !! "[DEFAULT]"
         = Some default_app
         /\ Some (100 + default_app)%nat = Some c.
Proof.
  assert (init_firestore unit nat nat nat (fun _ => Some "{}")
            (fun _ => Some tt) (fun _ => Some 1%nat) (fun _ => Some 2%nat)
            (fun cred => Some (10 + cred)%nat) (fun a => Some (100 + a)%nat)
            {[ "FIREBASE_CREDENTIALS" := "e30=" ]} (fun _ => true)
            {[ "[DEFAULT]" := 7%nat ]}
          = ([], Done 107%nat)) as Hrun by reflexivity.
  exists [], 107%nat. split; [exact Hrun |].
  destruct (init_firestore_client _ _ _ _ _ _ _ _ _ _ _ Hrun)
    as (Hout & Happ & _).
  split; [exact Hout |]. apply Happ. apply insert_non_empty.
Defined.

(** ** Data entry form: what one run can do to the collection *)

(** X4.  Whatever the widgets hold, the form ends normally, shows at most
    one message, and leaves every document other than the one under
    [doc_id] as it was: no document is removed, and the collection grows by
    at most one. *)
Theorem entry_form_touches_one_document
    (db : collection) (doc_id : string) (f : form_input) :
  exists out db',
    entry_form db doc_id f = (out, Done db')
    /\ (length out <= 1)%nat
    /\ (forall i, i <> doc_id -> db' !! i = db !! i)
    /\ dom db ⊆ dom db'
    /\ (size db <= size db' <= S (size db))%nat.
Proof.
  assert (forall out : list ui, (length out <= 1)%nat ->
            exists out' db', (out, Done db) = (out', Done db')
              /\ (length out' <= 1)%nat
              /\ (forall i, i <> doc_id -> db' !! i = db !! i)
              /\ dom db ⊆ dom db'
              /\ (size db <= size db' <= S (size db))%nat) as Hsame.
  { intros out Hout. exists out, db. split; [done |]. split; [done |].
    split; [done |]. split; [done | lia]. }
  unfold entry_form.
  destruct (submitted f); [| apply Hsame; simpl; lia].
  destruct (bool_decide (name f = "") || bool_decide (subject f = ""));
    [apply Hsame; simpl; lia |].
  eexists _, _. split; [reflexivity |]. unfold add_mark. simpl.
  split; [lia |]. split; [by intros i Hi; rewrite lookup_insert_ne |].
  split; [rewrite dom_insert_L; set_solver |].
  destruct (db !! doc_id) as [old |] eqn:Hold.
  - rewrite map_size_insert_Some by eauto. lia.
  - rewrite map_size_insert_None by done. lia.
Qed.

(** X5.  With an identifier that the collection does not hold yet, the
    form stores a document exactly when the button was pressed and neither
    the name nor the subject is the empty string (a name of blanks counts
    as a name); it shows the success message in exactly that case; without
    the button it shows nothing. *)
Theorem entry_form_writes_iff
    (db : collection) (doc_id : string) (f : form_input) :
  db !! doc_id = None ->
  let wanted := submitted f = true /\ name f <> "" /\ subject f <> "" in
  exists out db',
    entry_form db doc_id f = (out, Done db')
    /\ (is_Some (db' !! doc_id) <-> wanted)
    /\ (db' = db <-> ~ wanted)
    /\ (out = [st_success "Record added successfully!"] <-> wanted)
    /\ (submitted f = false -> out = []).
Proof.
  intros Hfresh wanted. subst wanted. unfold entry_form.
  destruct (submitted f).
  - case_bool_decide as Hname; simpl.
    { exists [st_warning "Please enter at least Student Name and Subject."], db.
      rewrite Hfresh. split; [done |].
      split; [split; [by intros [? ?] | tauto] |].
      split; [split; [tauto | done] |]. split; [| done].
      split; [done | tauto]. }
    case_bool_decide as Hsubject; simpl.
    { exists [st_warning "Please enter at least Student Name and Subject."], db.
      rewrite Hfresh. split; [done |].
      split; [split; [by intros [? ?] | tauto] |].
      split; [split; [tauto | done] |]. split; [| done].
      split; [done | tauto]. }
    eexists _, _. split; [reflexivity |]. unfold add_mark.
    rewrite lookup_insert_eq. split; [split; eauto |].
    split; [| split; [tauto | done]].
    split; [| tauto]. intros Heq.
    assert (<[doc_id:=new_document (name f) (student_id f) (subject f)
                        (marks f) (isoformat (date f))]> db !! doc_id = None)
      as Hnone by (by rewrite Heq).
    by rewrite lookup_insert_eq in Hnone.
  - exists [], db. rewrite Hfresh. split; [done |].
    split; [split; [by intros [? ?] | by intros [? _]] |].
    split; [split; [by intros _ [? _] | done] |].
    split; [| done]. split; [done | by intros [? _]].
Qed.

Lemma entry_form_writes_iff_witness :
  exists out db',
    entry_form ∅ "doc1" (mkForm " " "" "Math" 0 (mkDate 2024 1 1) true)
    = (out, Done db')
    /\ is_Some (db' !! "doc1")
    /\ out = [st_success "Record added successfully!"].
Proof.
  destruct (entry_form_writes_iff ∅ "doc1"
              (mkForm " " "" "Math" 0 (mkDate 2024 1 1) true))
    as (out & db' & Hrun & Hdoc & _ & Hout & _).
  - reflexivity.
  - exists out, db'. split; [exact Hrun |].
    split; [apply Hdoc | apply Hout]; by simpl.
Defined.

(** ** Dates written and read back *)

Lemma digit_value_digit (k : Z) : 0 <= k < 10 -> digit_value (digit k) = Some k.
Proof.
  intros Hk. unfold digit_value, digit.
  rewrite N_ascii_embedding by lia. rewrite Z2N.id by lia.
  rewrite (proj2 (Z.leb_le _ _)), (proj2 (Z.leb_le _ _)) by lia.
  simpl. f_equal. lia.
Qed.

Lemma iso_to_datetime_isoformat (d : Date) :
  date_valid d -> iso_to_datetime (isoformat d) = Some d.
Proof.
  intros Hvalid. pose proof (date_valid_bounds d Hvalid) as (Hy & Hm & Hd).
  destruct d as [y m d]. simpl in Hy, Hm, Hd.
  pose proof (decimal4 y Hy) as Hy4. pose proof (decimal2 m Hm) as Hm2.
  pose proof (decimal2 d Hd) as Hd2.
  unfold iso_to_datetime, isoformat, pad4, pad2. simpl.
  rewrite !digit_value_digit by apply decimal_digit. simpl.
  assert (forall a b c e,
            10 * (10 * (10 * (10 * 0 + a) + b) + c) + e
            = 1000 * a + 100 * b + 10 * c + e) as E4 by (intros; lia).
  assert (forall a b, 10 * (10 * 0 + a) + b = 10 * a + b) as E2
    by (intros; lia).
  rewrite E4, !E2, <- Hy4, <- Hm2, <- Hd2.
  by rewrite bool_decide_eq_true_2.
Qed.

(** ** Collections written through the form *)

Lemma as_record_new_document i n s sj m d :
  as_record (fetch_row (i, new_document n s sj m d))
  = Some (mkRecord i n s sj m d).
Proof. reflexivity. Qed.

Lemma records_form_documents (l : list (string * document)) :
  Forall (fun x => form_document x.2) l ->
  exists rows,
    mapM as_record (fetch_row <$> l) = Some rows
    /\ r_id <$> rows = l.*1
    /\ Forall form_row rows.
Proof.
  induction 1 as [| [i data] l Hdoc _ (rows & Hrows & Hids & Hall)].
  - by exists [].
  - simpl in Hdoc.
    destruct Hdoc as (n & s & sj & m & d & Hn & Hsj & Hd & ->).
    exists (mkRecord i n s sj m (isoformat d) :: rows).
    rewrite fmap_cons. cbn [mapM]. rewrite as_record_new_document, Hrows.
    split; [done |]. split; [by rewrite fmap_cons, Hids |].
    constructor; [| done]. repeat split; try done. by exists d.
Qed.

Lemma records_form_written (db : collection) :
  form_written db ->
  exists rows,
    records (fetch_all db) = Some rows
    /\ r_id <$> rows = (map_to_list db).*1
    /\ Forall form_row rows.
Proof.
  intros Hdb. apply records_form_documents, Forall_forall.
  intros [i data] Hin%elem_of_map_to_list. by apply (Hdb i).
Qed.

(** X6.  A collection in which every document was stored by the form
    stays one under the form: whatever the widgets hold, as long as the
    date widget holds a date of the calendar, every document after the run
    has the five attributes with a name and a subject that are not empty
    and a date in the form of [isoformat]. *)
Theorem entry_form_keeps_form_written
    (db : collection) (doc_id : string) (f : form_input) :
  form_written db ->
  date_valid (date f) ->
  exists out db',
    entry_form db doc_id f = (out, Done db') /\ form_written db'.
Proof.
  intros Hdb Hdate. unfold entry_form.
  destruct (submitted f); [| by exists [], db].
  case_bool_decide as Hname; simpl; [by eexists _, db |].
  case_bool_decide as Hsubject; simpl; [by eexists _, db |].
  eexists _, _. split; [reflexivity |].
  unfold add_mark. apply map_Forall_insert_2; [| exact Hdb].
  exists (name f), (student_id f), (subject f), (marks f), (date f). done.
Qed.

Lemma entry_form_keeps_form_written_witness :
  exists out db',
    entry_form ∅ "doc1" (mkForm "Alice" "" "Math" 80 (mkDate 2024 1 1) true)
    = (out, Done db')
    /\ form_written db'.
Proof.
  apply (entry_form_keeps_form_written ∅ "doc1"
           (mkForm "Alice" "" "Math" 80 (mkDate 2024 1 1) true)).
  - apply map_Forall_empty.
  - by vm_compute.
Defined.

(** X7.  What the form stores, the reader reads back as a row of the
    frame that the dashboard can work on: for a collection written through
    the form, the frame of [fetch_all] has one row per document, with the
    documents' identifiers, and every row has a string in [id], [name],
    [student_id], [subject] and [date] and an integer in [marks], with the
    name and subject not empty and the date in the form of [isoformat]. *)
Theorem form_written_frame_is_typed (db : collection) :
  form_written db ->
  exists rows,
    records (fetch_all db) = Some rows
    /\ fetch_all db = of_record <$> rows
    /\ length rows = size db
    /\ r_id <$> rows = (map_to_list db).*1
    /\ Forall form_row rows.
Proof.
  intros (rows & Hrows & Hids & Hall)%records_form_written.
  exists rows. split; [exact Hrows |].
  split; [by apply records_of_record |].
  split; [| done].
  apply length_mapM in Hrows. by rewrite <- Hrows, length_fetch_all.
Qed.

Lemma form_written_frame_is_typed_witness :
  exists rows,
    records (fetch_all (add_mark ∅ "doc1" "Alice" "" "Math" 80 "2024-01-01"))
    = Some rows
    /\ length rows = 1%nat.
Proof.
  destruct (form_written_frame_is_typed
              (add_mark ∅ "doc1" "Alice" "" "Math" 80 "2024-01-01"))
    as (rows & Hrows & _ & Hlen & _).
  - apply map_Forall_insert_2; [| apply map_Forall_empty].
    exists "Alice", "", "Math", 80, (mkDate 2024 1 1).
    repeat split; try done; by vm_compute.
  - exists rows. split; [exact Hrows |]. rewrite Hlen. reflexivity.
Defined.

(** ** Main dashboard: what is shown, and how it ends *)

Lemma emit_bind {A} (u : ui) (k : script A) :
  (emit u;; k) = (u :: k.1, k.2).
Proof. by destruct k as [out [a | | exn]]. Qed.

Lemma Forall_apply_filters (P : MarkRecord -> Prop) df subj student :
  Forall P df -> Forall P (apply_filters df subj student).
Proof.
  rewrite apply_filters_filter, !Forall_forall.
  intros Hdf r [_ Hr]%list_elem_of_filter. by apply Hdf.
Qed.

Lemma trend_block_done to_datetime filtered student :
  Forall (iso_dated to_datetime) filtered ->
  (trend_block to_datetime filtered student).2 = Done tt.
Proof.
  intros Hiso. unfold trend_block. rewrite emit_bind.
  by rewrite trend_points_parsed.
Qed.

Lemma dashboard_body_done to_datetime rows sel :
  Forall (iso_dated to_datetime) rows ->
  (dashboard_body to_datetime rows sel).2 = Done tt.
Proof.
  intros Hiso. unfold dashboard_body. rewrite !emit_bind. cbn [snd].
  pose proof (Forall_apply_filters _ rows (subj_filter sel)
                (student_filter sel) Hiso) as Hfiltered.
  destruct (apply_filters rows (subj_filter sel) (student_filter sel))
    as [| r filtered] eqn:Hf; [done |].
  rewrite ?emit_bind. cbn [snd].
  pose proof (trend_block_done to_datetime (r :: filtered)
                (student_filter sel) Hfiltered) as Htrend.
  destruct (trend_block to_datetime (r :: filtered) (student_filter sel))
    as [out res]. simpl in Htrend. subst res.
  by destruct (show_chart sel), (bool_decide (student_filter sel <> "All")).
Qed.

Lemma form_row_iso_dated (to_datetime : string -> option Date) r :
  (forall d, date_valid d -> to_datetime (isoformat d) = Some d) ->
  form_row r -> iso_dated to_datetime r.
Proof.
  intros Hread (_ & _ & d & Hd & Hdate). exists d.
  split; [done |]. split; [done |]. rewrite Hdate. by apply Hread.
Qed.

(** X8.  On a collection written through the form, and with a
    [pd.to_datetime] that reads the dates that [isoformat] writes, the
    dashboard ends normally for every choice of filters, aggregation and
    chart option: no exception escapes and the script is not halted. *)
Theorem dashboard_of_form_written_ends_normally
    (to_datetime : string -> option Date) (db : collection) (sel : selection) :
  (forall d, date_valid d -> to_datetime (isoformat d) = Some d) ->
  form_written db ->
  exists out, dashboard to_datetime (fetch_all db) sel = Some (out, Done tt).
Proof.
  intros Hread (rows & Hrows & _ & Hall)%records_form_written.
  unfold dashboard. destruct (fetch_all db) as [| r df] eqn:Hdf.
  - eexists. reflexivity.
  - cbn [empty]. rewrite Hrows. cbn [mbind option_bind]. rewrite emit_bind.
    assert ((dashboard_body to_datetime rows sel).2 = Done tt) as ->.
    { apply dashboard_body_done. eapply Forall_impl; [exact Hall |].
      intros r'. by apply form_row_iso_dated. }
    eexists. reflexivity.
Qed.

Lemma dashboard_of_form_written_ends_normally_witness :
  exists out,
    dashboard iso_to_datetime
      (fetch_all (add_mark ∅ "doc1" "Alice" "" "Math" 80 "2024-01-01"))
      (mkSelection "Math" "Alice" Max true)
    = Some (out, Done tt).
Proof.
  apply (dashboard_of_form_written_ends_normally iso_to_datetime
           (add_mark ∅ "doc1" "Alice" "" "Math" 80 "2024-01-01")
           (mkSelection "Math" "Alice" Max true)).
  - apply iso_to_datetime_isoformat.
  - apply map_Forall_insert_2; [| apply map_Forall_empty].
    exists "Alice", "", "Math", 80, (mkDate 2024 1 1).
    repeat split; try done; by vm_compute.
Defined.

#[global] Instance flip_date_le_trans : Transitive (flip date_le).
Proof. intros r1 r2 r3 H12 H23. unfold flip in *. by etrans. Qed.

#[global] Instance flip_date_le_total : Total (flip date_le).
Proof. intros r1 r2. unfold flip. destruct (total date_le r1 r2); auto. Qed.

(** X9.  Whenever the frame has rows, the first thing under the header
    "All Records" is a table with the rows of the whole frame, each once,
    whatever the filters are, and in the order of their dates, the latest
    first (dates compared as strings). *)
Theorem all_records_table_latest_first
    (to_datetime : string -> option Date)
    (rows : list MarkRecord) (sel : selection) :
  exists rest,
    (dashboard_body to_datetime rows sel).1
    = st_subheader "All Records"
      :: st_dataframe (sort_values_date false rows) :: rest
    /\ sort_values_date false rows ≡ₚ rows
    /\ StronglySorted (fun r1 r2 => String.le (r_date r2) (r_date r1))
         (sort_values_date false rows).
Proof.
  unfold dashboard_body. rewrite !emit_bind. cbn [fst].
  eexists. split; [reflexivity |]. unfold sort_values_date.
  split; [apply merge_sort_Permutation |].
  apply (StronglySorted_merge_sort (flip date_le)).
Qed.

(** X10.  With a filtered set that is not empty, the dashboard shows the
    aggregation table; it draws the bar chart exactly when "Show Charts"
    is ticked, and a line chart only when a student is selected. *)
Theorem charts_follow_the_widgets
    (to_datetime : string -> option Date)
    (rows : list MarkRecord) (sel : selection) :
  apply_filters rows (subj_filter sel) (student_filter sel) <> [] ->
  let out := (dashboard_body to_datetime rows sel).1 in
  existsb is_table out = true
  /\ existsb is_bar_chart out = show_chart sel
  /\ (existsb is_line_chart out = true -> student_filter sel <> "All").
Proof.
  intros Hne out. subst out. unfold dashboard_body.
  rewrite !emit_bind. cbn [fst].
  destruct (apply_filters rows (subj_filter sel) (student_filter sel))
    as [| r filtered]; [done |].
  rewrite ?emit_bind. cbn [fst]. unfold trend_block.
  case_bool_decide as Hstudent.
  - rewrite ?emit_bind.
    destruct (show_chart sel), (trend_points to_datetime (r :: filtered));
      by cbn.
  - by destruct (show_chart sel).
Qed.

Lemma charts_follow_the_widgets_witness :
  let out :=
    (dashboard_body iso_to_datetime example_records
       (mkSelection "Math" "All" Count false)).1 in
  existsb is_table out = true
  /\ existsb is_bar_chart out = false
  /\ (existsb is_line_chart out = true -> "All" <> "All").
Proof.
  apply (charts_follow_the_widgets iso_to_datetime example_records
           (mkSelection "Math" "All" Count false)).
  by vm_compute.
Defined.

Lemma mapM_None_elem_of {A B} (f : A -> option B) (l : list A) x :
  x ∈ l -> f x = None -> mapM f l = None.
Proof.
  intros Hx Hfx. destruct (mapM f l) as [k |] eqn:Hk; [| done].
  apply mapM_Some_1 in Hk.
  apply list_elem_of_lookup in Hx as [i Hi].
  destruct (Forall2_lookup_l _ _ _ _ _ Hk Hi) as (y & _ & Hy). congruence.
Qed.

(** X11.  When a student is selected and [pd.to_datetime] cannot read the
    date of one of the filtered rows, the exception escapes from the trend
    block: the run ends there, after the aggregation table and the heading
    of the trend have been shown, and no line chart is drawn. *)
Theorem unreadable_date_stops_the_trend
    (to_datetime : string -> option Date)
    (rows : list MarkRecord) (sel : selection) (r : MarkRecord) :
  student_filter sel <> "All" ->
  r ∈ apply_filters rows (subj_filter sel) (student_filter sel) ->
  to_datetime (r_date r) = None ->
  let run := dashboard_body to_datetime rows sel in
  (exists exn, run.2 = Raised exn)
  /\ existsb is_table run.1 = true
  /\ existsb is_line_chart run.1 = false
  /\ last run.1
     = Some (st_subheader ("Marks trend for " +:+ student_filter sel)).
Proof.
  intros Hstudent Hr Hdate run. subst run.
  assert (trend_points to_datetime
            (apply_filters rows (subj_filter sel) (student_filter sel))
          = None) as Htrend.
  { unfold trend_points.
    rewrite (mapM_None_elem_of to_datetime _ (r_date r)); [done | | done].
    apply list_elem_of_fmap. exists r. split; [done |].
    unfold sort_values_date. by rewrite merge_sort_Permutation. }
  unfold dashboard_body. rewrite !emit_bind. cbn [fst snd].
  destruct (apply_filters rows (subj_filter sel) (student_filter sel))
    as [| r' filtered]; [by apply elem_of_nil in Hr |].
  rewrite ?emit_bind. cbn [fst snd]. unfold trend_block.
  rewrite bool_decide_eq_true_2 by done. rewrite ?emit_bind, Htrend.
  destruct (show_chart sel); cbn; eauto.
Qed.

Lemma unreadable_date_stops_the_trend_witness :
  let run :=
    dashboard_body iso_to_datetime
      [mkRecord "r1" "Alice" "" "Math" 80 "last week"]
      (mkSelection "All" "Alice" Average true) in
  (exists exn, run.2 = Raised exn)
  /\ existsb is_table run.1 = true
  /\ existsb is_line_chart run.1 = false
  /\ last run.1 = Some (st_subheader ("Marks trend for " +:+ "Alice")).
Proof.
  apply (unreadable_date_stops_the_trend iso_to_datetime
           [mkRecord "r1" "Alice" "" "Math" 80 "last week"]
           (mkSelection "All" "Alice" Average true)
           (mkRecord "r1" "Alice" "" "Math" 80 "last week")).
  - discriminate.
  - vm_compute. left.
  - reflexivity.
Defined.

(** ** Aggregator: filters and select boxes *)

(** X12.  The filtered set holds exactly the rows of the frame that have
    the selected subject (any subject when "All" is selected) and the
    selected name (any name when "All" is selected), in the order of the
    frame; filtering by name first and by subject second gives the same,
    and filtering what is already filtered changes nothing. *)
Theorem apply_filters_selects_matching_rows
    (df : list MarkRecord) (subj student : string) :
  (forall r, r ∈ apply_filters df subj student <->
             r ∈ df /\ (subj = "All" \/ r_subject r = subj)
             /\ (student = "All" \/ r_name r = student))
  /\ apply_filters df subj student `sublist_of` df
  /\ apply_filters df subj student
     = apply_filters (apply_filters df "All" student) subj "All"
  /\ apply_filters (apply_filters df subj student) subj student
     = apply_filters df subj student.
Proof.
  rewrite !apply_filters_filter. split.
  { intros r. rewrite list_elem_of_filter. tauto. }
  split; [apply sublist_filter |].
  rewrite !list_filter_filter.
  split; apply list_filter_iff; intros r; tauto.
Qed.

Lemma elem_of_subject_options (df : list MarkRecord) subj :
  subj ∈ subject_options df <-> subj = "All" \/ subj ∈ r_subject <$> df.
Proof.
  unfold subject_options.
  by rewrite elem_of_cons, merge_sort_Permutation, elem_of_remove_dups.
Qed.

Lemma elem_of_student_options (df : list MarkRecord) student :
  student ∈ student_options df <-> student = "All" \/ student ∈ r_name <$> df.
Proof.
  unfold student_options.
  by rewrite elem_of_cons, merge_sort_Permutation, elem_of_remove_dups.
Qed.

(** X13.  The select boxes offer "All" and the subjects (names) that
    occur in the frame, so one filter alone never leaves the frame empty:
    on a frame with rows, the warning "No data after applying filters" can
    only come up when both a subject and a student are selected. *)
Theorem one_filter_alone_leaves_rows
    (df : list MarkRecord) (subj student : string) :
  df <> [] ->
  subj ∈ subject_options df ->
  student ∈ student_options df ->
  apply_filters df subj student = [] ->
  subj <> "All" /\ student <> "All".
Proof.
  intros Hdf Hsubj%elem_of_subject_options Hstudent%elem_of_student_options
         Hnone.
  assert (forall r, r ∈ df -> (subj = "All" \/ r_subject r = subj) ->
                    (student = "All" \/ r_name r = student) -> False)
    as Hno.
  { intros r Hr H1 H2. apply (elem_of_nil r). rewrite <- Hnone.
    rewrite apply_filters_filter. apply list_elem_of_filter. tauto. }
  destruct df as [| r0 df]; [done |].
  split; intros ->.
  - destruct Hstudent as [-> | (r & -> & Hr)%list_elem_of_fmap].
    + apply (Hno r0); [left | by left | by left].
    + apply (Hno r Hr); [by left | by right].
  - destruct Hsubj as [-> | (r & -> & Hr)%list_elem_of_fmap].
    + apply (Hno r0); [left | by left | by left].
    + apply (Hno r Hr); [by right | by left].
Qed.

Lemma one_filter_alone_leaves_rows_witness :
  "Math" <> "All" /\ "Carol" <> "All".
Proof.
  apply (one_filter_alone_leaves_rows
           [mkRecord "r1" "Alice" "" "Math" 80 "2024-01-01";
            mkRecord "r2" "Carol" "" "Art" 60 "2024-01-02"]
           "Math" "Carol").
  - discriminate.
  - vm_compute. right; right; left.
  - vm_compute. right; right; left.
  - reflexivity.
Defined.

(** ** Aggregator: groups *)

Lemma StronglySorted_strict (l : list string) :
  StronglySorted String.le l -> NoDup l ->
  StronglySorted (fun a b => String.le a b /\ a <> b) l.
Proof.
  induction 1 as [| a l _ IH Ha]; intros Hnodup; [constructor |].
  apply NoDup_cons in Hnodup as [Hnotin Hnodup].
  constructor; [by apply IH |].
  rewrite Forall_forall in Ha. apply Forall_forall.
  intros b Hb. split; [by apply Ha |]. by intros ->.
Qed.

(** X14.  The subjects of the aggregation result come in strictly
    ascending order of strings, so no subject appears twice; this is the
    order of the rows of the table and of the bars of the chart. *)
Theorem result_series_sorted_by_subject
    (filtered : list MarkRecord) (choice : agg) :
  StronglySorted (fun a b => String.le a b /\ a <> b)
    (result_series filtered choice).*1.
Proof.
  rewrite result_series_keys. apply StronglySorted_strict.
  - unfold group_keys. apply StronglySorted_merge_sort; apply _.
  - apply NoDup_group_keys.
Qed.

Lemma filter_by_keys_cons {A K} `{EqDecision K} (g : A -> K) (x : A)
    (l : list A) (keys : list K) :
  NoDup keys ->
  concat ((fun key => filter (fun y => g y = key) (x :: l)) <$> keys)
  ≡ₚ (if decide (g x ∈ keys) then [x] else [])
     ++ concat ((fun key => filter (fun y => g y = key) l) <$> keys).
Proof.
  induction 1 as [| key keys Hnotin Hnodup IH]; [done |].
  rewrite !fmap_cons, !concat_cons, IH. rewrite filter_cons.
  destruct (decide (g x = key)) as [<- | Hne].
  - rewrite (decide_True (P := g x ∈ g x :: keys)) by left.
    by rewrite (decide_False (P := g x ∈ keys)) by done.
  - destruct (decide (g x ∈ keys)) as [Hin | Hout].
    + rewrite (decide_True (P := g x ∈ key :: keys)) by (by right). simpl.
      by rewrite Permutation_middle.
    + rewrite (decide_False (P := g x ∈ key :: keys)); [done |].
      by intros [? | ?]%elem_of_cons.
Qed.

Lemma filter_by_keys {A K} `{EqDecision K} (g : A -> K) (l : list A)
    (keys : list K) :
  NoDup keys -> (forall x, x ∈ l -> g x ∈ keys) ->
  concat ((fun key => filter (fun y => g y = key) l) <$> keys) ≡ₚ l.
Proof.
  intros Hnodup. induction l as [| x l IH]; intros Hkeys.
  - clear Hnodup Hkeys. by induction keys as [| key keys IHk].
  - rewrite filter_by_keys_cons by done.
    rewrite decide_True by (apply Hkeys; left).
    simpl. f_equiv. apply IH. intros y Hy. apply Hkeys. by right.
Qed.

(** X15.  The groups split the filtered rows: every filtered row is in
    the group of exactly one subject of the result, so the marks of all
    the groups together are the marks of the filtered rows, and the counts
    of the "Count" aggregation add up to the number of filtered rows. *)
Theorem groups_split_the_filtered_rows (filtered : list MarkRecord) :
  concat ((groupby_marks filtered).*2) ≡ₚ r_marks <$> filtered
  /\ (result_series filtered Count).*2
     = (fun g => NInt (count g)) <$> (groupby_marks filtered).*2
  /\ sum_list (count <$> (groupby_marks filtered).*2)
     = Z.of_nat (length filtered).
Proof.
  assert (concat ((groupby_marks filtered).*2) ≡ₚ r_marks <$> filtered)
    as Hsplit.
  { unfold groupby_marks, group. rewrite <- list_fmap_compose.
    rewrite <- (filter_by_keys r_subject filtered (group_keys filtered))
      at 2.
    - induction (group_keys filtered) as [| key keys IH]; [done |].
      rewrite !fmap_cons, !concat_cons, fmap_app. by f_equiv.
    - apply NoDup_group_keys.
    - intros r Hr. apply elem_of_group_keys, list_elem_of_fmap. eauto. }
  split; [exact Hsplit |]. split.
  { unfold result_series, agg_map. by rewrite <- !list_fmap_compose. }
  apply Permutation_length in Hsplit. rewrite length_fmap in Hsplit.
  rewrite <- Hsplit. clear Hsplit.
  induction ((groupby_marks filtered).*2) as [| g groups IH]; [done |].
  rewrite fmap_cons, concat_cons, length_app. simpl. rewrite IH.
  unfold count. lia.
Qed.

(** ** Aggregator: values *)

Lemma group_bounds (filtered : list MarkRecord) key lo hi :
  Forall (fun r => lo <= r_marks r <= hi) filtered ->
  Forall (fun x => lo <= x <= hi) (group filtered key).
Proof.
  intros Hall. unfold group. apply Forall_fmap, Forall_forall.
  rewrite Forall_forall in Hall.
  intros r [_ Hr]%list_elem_of_filter. by apply Hall.
Qed.

(** X16.  Averages, maxima and minima stay within the range of the marks:
    when every filtered row has its marks between [lo] and [hi] (0 and 100
    for rows entered through the form), so has every value of the result,
    for each of these three aggregations.  For the average, a float, the
    marks are not negative and a hundred times [hi], and [hi] times the
    number of rows, stay below [2^53], where integers are floats. *)
Theorem aggregates_stay_in_range
    (filtered : list MarkRecord) (choice : agg) (lo hi : Z) :
  Forall (fun r => lo <= r_marks r <= hi) filtered ->
  choice <> Count ->
  (choice = Average ->
   0 <= lo /\ 100 * hi < 2 ^ 53
   /\ hi * Z.of_nat (length filtered) < 2 ^ 53
   /\ Z.of_nat (length filtered) < 2 ^ 53) ->
  forall key v, (key, v) ∈ result_series filtered choice ->
    (inject_Z lo <= number_Q v <= inject_Z hi)%Q.
Proof.
  intros Hall Hchoice Hfloat key v [Hkey ->]%elem_of_result_series.
  pose proof (group_bounds filtered key lo hi Hall) as Hgroup.
  pose proof (group_nonempty filtered key Hkey) as Hne.
  destruct choice; cbn [round reduce number_Q]; [| | | done].
  - destruct (Hfloat eq_refl) as (Hlo & Hhi & Hmul & Hlen).
    assert (length (group filtered key) <= length filtered)%nat as Hsub.
    { unfold group. rewrite length_fmap. apply length_filter. }
    assert (lo <= hi) as Hle.
    { destruct (group filtered key) as [| x l]; [done |].
      apply Forall_cons in Hgroup as [Hx _]. lia. }
    apply round2_bounds; [done | done |].
    apply mean_bounds; [done | done | done | nia | lia].
  - rewrite Forall_forall in Hgroup.
    destruct (max_spec _ Hne) as [Hin _]. apply Hgroup in Hin.
    rewrite <- !Zle_Qle. lia.
  - rewrite Forall_forall in Hgroup.
    destruct (min_spec _ Hne) as [Hin _]. apply Hgroup in Hin.
    rewrite <- !Zle_Qle. lia.
Qed.

Lemma aggregates_stay_in_range_witness :
  (inject_Z 0 <= number_Q (NFloat 80) <= inject_Z 100)%Q.
Proof.
  apply (aggregates_stay_in_range example_records Average 0 100)
    with (key := "Math").
  - repeat constructor; simpl; lia.
  - discriminate.
  - intros _. vm_compute. by repeat split.
  - vm_compute. left.
Defined.

(** X17.  [round(2)] of a float that is not negative is the float of a
    whole number of hundredths, and that number of hundredths is within half
    a hundredth of the argument, up to the relative error [2^-53] of the
    multiplication by a hundred.  A float that already is the float of a
    number of hundredths is left as it is: rounding twice is rounding
    once. *)
Theorem round2_error (x : Q) (k : Z) :
  (0 <= x)%Q -> 0 <= k < 2 ^ 50 ->
  (exists hundredths,
     round2 x = fl (inject_Z hundredths / 100)
     /\ (- (1 # 200) - x * (1 # 2 ^ 53)
         <= inject_Z hundredths / 100 - x
         <= (1 # 200) + x * (1 # 2 ^ 53))%Q)
  /\ round2 (fl (inject_Z k / 100)) = fl (inject_Z k / 100).
Proof.
  intros Hx Hk. split; [| by apply round2_idempotent].
  exists (round_half_even (fl (x * 100))). split; [reflexivity |].
  destruct (round2_near x Hx) as [H1 H2].
  change (1 # 2 ^ 53)%Q with (1 # 9007199254740992)%Q.
  split; lra.
Qed.

Lemma round2_error_witness :
  (exists hundredths,
     round2 (fl (23 / 40)) = fl (inject_Z hundredths / 100)
     /\ (- (1 # 200) - fl (23 / 40) * (1 # 2 ^ 53)
         <= inject_Z hundredths / 100 - fl (23 / 40)
         <= (1 # 200) + fl (23 / 40) * (1 # 2 ^ 53))%Q)
  /\ round2 (fl (57 / 100)) = fl (57 / 100).
Proof.
  apply (round2_error (fl (23 / 40)) 57).
  - vm_compute. discriminate.
  - vm_compute. split; [discriminate | reflexivity].
Defined.

(** ** Record reader and export on any collection *)

(** X18.  A document that lacks one of the five attributes is read as if
    it stored the default of that attribute: the frame cannot tell a missing
    name from the empty name, or missing marks from the mark 0. *)
Theorem missing_attribute_reads_as_default
    (i : string) (data : document) (key : string) :
  key ∈ document_attributes ->
  data !! key = None ->
  fetch_row (i, <[key := attribute_default key]> data) = fetch_row (i, data).
Proof.
  intros Hkey Hnone. unfold fetch_row, get, document_attributes in *.
  cbn [fst snd].
  repeat (apply elem_of_cons in Hkey as [-> | Hkey];
          [rewrite lookup_insert_eq, !lookup_insert_ne by done;
           by rewrite Hnone |]).
  by apply elem_of_nil in Hkey.
Qed.

Lemma missing_attribute_reads_as_default_witness :
  fetch_row ("doc1", <["marks" := attribute_default "marks"]>
                       {[ "name" := VStr "Alice" ]})
  = fetch_row ("doc1", {[ "name" := VStr "Alice" ]}).
Proof.
  apply (missing_attribute_reads_as_default "doc1"
           {[ "name" := VStr "Alice" ]} "marks").
  - unfold document_attributes. do 3 right. left.
  - reflexivity.
Defined.

Lemma contains_CR_fetch_row (d : string * document) :
  contains CR d.1 = false ->
  map_Forall (fun _ v => contains CR (cell_text v) = false) d.2 ->
  Forall (fun f => contains CR f = false) (cell_text <$> (fetch_row d).*2).
Proof.
  intros Hid Hdata.
  assert (forall key dflt,
            contains CR (cell_text dflt) = false ->
            contains CR (cell_text (get d.2 key dflt)) = false) as Hget.
  { intros key dflt Hdflt. unfold get.
    destruct (d.2 !! key) as [v |] eqn:Hv; [| done].
    by apply (Hdata key v). }
  unfold fetch_row. cbn [fmap list_fmap fst snd cell_text].
  repeat apply Forall_cons_2; try (by apply Hget); [done | done].
Qed.

(** X19.  Whatever the documents of a collection hold (commas, quotes,
    line feeds, nulls, values of another type), as long as no identifier and
    no stored value holds a carriage return, the CSV text of its frame
    splits into the header line of the six field names and one line per
    document, each of six fields: no such value breaks the lines or the
    fields of the export. *)
Theorem export_has_six_fields_per_document (db : collection) :
  db <> ∅ ->
  map_Forall (fun i data =>
    contains CR i = false
    /\ map_Forall (fun _ v => contains CR (cell_text v) = false) data) db ->
  exists lines,
    parse_csv RowStart [] [] (to_csv (fetch_all db))
    = ["id"; "name"; "student_id"; "subject"; "marks"; "date"] :: lines
    /\ length lines = size db
    /\ Forall (fun fields => length fields = 6%nat) lines.
Proof.
  intros Hdb Hcr.
  exists ((fun r : pydict => cell_text <$> r.*2) <$> fetch_all db).
  split; [| split].
  - assert (columns (fetch_all db) = mark_columns) as Hcolumns.
    { pose proof (fetch_all_nil db) as Hnil. unfold fetch_all in *.
      destruct (stream db) as [| d l]; [by destruct Hdb; apply Hnil |].
      reflexivity. }
    unfold to_csv. rewrite Hcolumns.
    rewrite parse_csv_row; [| done | by repeat constructor].
    replace ((fun r : pydict => csv_row (cell_text <$> r.*2)) <$> fetch_all db)
      with (csv_row <$> ((fun r : pydict => cell_text <$> r.*2)
                           <$> fetch_all db))
      by (by rewrite <- list_fmap_compose).
    rewrite parse_csv_lines; [done | |].
    + unfold fetch_all. apply Forall_fmap, Forall_fmap, Forall_forall.
      by intros d _.
    + unfold fetch_all. apply Forall_fmap, Forall_fmap, Forall_forall.
      intros [i data] Hd%elem_of_stream.
      destruct (Hcr i data Hd) as [Hi Hdata].
      by apply contains_CR_fetch_row.
  - by rewrite length_fmap, length_fetch_all.
  - unfold fetch_all. apply Forall_fmap, Forall_fmap, Forall_forall.
    by intros d _.
Qed.

Lemma export_has_six_fields_per_document_witness :
  exists lines,
    parse_csv RowStart [] []
      (to_csv (fetch_all {[ "doc1" := {[ "name" := VStr "a,b"; "marks" := VNone ]} ]}))
    = ["id"; "name"; "student_id"; "subject"; "marks"; "date"] :: lines
    /\ length lines
       = size ({[ "doc1" := {[ "name" := VStr "a,b"; "marks" := VNone ]} ]}
               : collection)
    /\ Forall (fun fields => length fields = 6%nat) lines.
Proof.
  apply (export_has_six_fields_per_document
           {[ "doc1" := {[ "name" := VStr "a,b"; "marks" := VNone ]} ]}).
  - apply insert_non_empty.
  - apply map_Forall_singleton. split; [reflexivity |].
    apply map_Forall_insert_2; [reflexivity |].
    apply map_Forall_singleton. reflexivity.
Defined.

(** ** Dates as the form writes them *)

(** X20.  On the dates of the calendar, [isoformat] writes ten
    characters, different dates give different strings, and the order of
    the strings is the order of the dates; so sorting the frame by its date
    column sorts the records written through the form by date. *)
Theorem isoformat_keeps_the_order_of_dates (d1 d2 : Date) :
  date_valid d1 -> date_valid d2 ->
  String.length (isoformat d1) = 10%nat
  /\ (isoformat d1 = isoformat d2 -> d1 = d2)
  /\ (String.le (isoformat d1) (isoformat d2) <-> chronological d1 d2).
Proof.
  intros H1 H2. split; [reflexivity |]. split; [| by apply isoformat_le].
  intros Heq. pose proof (iso_to_datetime_isoformat d1 H1) as Hd1.
  rewrite Heq, iso_to_datetime_isoformat in Hd1 by done. by injection Hd1.
Qed.

Lemma isoformat_keeps_the_order_of_dates_witness :
  String.length (isoformat (mkDate 999 12 31)) = 10%nat
  /\ (isoformat (mkDate 999 12 31) = isoformat (mkDate 1000 1 1) ->
      mkDate 999 12 31 = mkDate 1000 1 1)
  /\ (String.le (isoformat (mkDate 999 12 31)) (isoformat (mkDate 1000 1 1))
      <-> chronological (mkDate 999 12 31) (mkDate 1000 1 1)).
Proof.
  apply (isoformat_keeps_the_order_of_dates (mkDate 999 12 31)
           (mkDate 1000 1 1)); by vm_compute.
Defined.

(** ** The whole script *)

Lemma dashboard_records to_datetime (df : DataFrame) rows sel :
  df <> [] -> records df = Some rows ->
  dashboard to_datetime df sel
  = Some (st_header "📊 Dashboard" :: (dashboard_body to_datetime rows sel).1,
          (dashboard_body to_datetime rows sel).2).
Proof.
  intros Hdf Hrows. unfold dashboard. destruct df as [| r df]; [done |].
  cbn [empty]. rewrite Hrows. cbn [mbind option_bind]. by rewrite emit_bind.
Qed.

Lemma export_records (df : DataFrame) :
  df <> [] ->
  export df
  = ([st_header "Export";
      st_download_button "Download CSV" (to_csv df) "student_marks.csv"
        "text/csv"], Done tt).
Proof. by destruct df. Qed.

Lemma of_record_inj r1 r2 : of_record r1 = of_record r2 -> r1 = r2.
Proof. destruct r1, r2. unfold of_record; simpl. by intros [= -> -> -> -> -> ->]. Qed.

Section App_facts.

Context {json credential app client : Type}.
Variable b64decode_utf8 : string -> option string.
Variable json_loads : string -> option json.
Variable Certificate_dict : json -> option credential.
Variable Certificate_file : string -> option credential.
Variable initialize_app : credential -> option app.
Variable firestore_client : app -> option client.
Variable to_datetime : string -> option Date.

(** X21.  A run that cannot connect to the store shows the title and the
    error message and nothing else, and leaves the collection as it was,
    whatever the form holds: no record is written, even by a valid
    submission, when the environment supplies no readable credentials and
    there is no key file. *)
Theorem run_without_credentials_writes_nothing
    (environ : gmap string string) (path_exists : string -> bool)
    (apps : gmap string app) (db : collection) (doc_id : string)
    (f : form_input) (sel : selection) :
  environment_credentials json credential b64decode_utf8 json_loads
    Certificate_dict environ = None ->
  path_exists "firebase_key.json" = false ->
  exists message,
    run_app json credential app client b64decode_utf8 json_loads
      Certificate_dict Certificate_file initialize_app firestore_client
      to_datetime environ path_exists apps db doc_id f sel
    = Some (db,
            [st_title "🎓 Cloud-Based Student Marks Dashboard";
             st_main (st_error message)],
            Stopped).
Proof.
  intros Henv Hfile. unfold run_app.
  destruct (init_firestore_cases b64decode_utf8 json_loads Certificate_dict
              Certificate_file initialize_app firestore_client environ
              path_exists apps)
    as [(? & _ & _ & Hcase) | [(cred & Hcred & _) | [(_ & _ & Hcase)
       | [(_ & ? & _) | (cred & _ & ? & _)]]]];
    try congruence; rewrite Hcase; by eexists.
Qed.

End App_facts.

Lemma run_without_credentials_writes_nothing_witness :
  exists message,
    run_app unit unit unit unit (fun _ => None) (fun _ => None)
      (fun _ => None) (fun _ => None) (fun _ => None) (fun _ => None)
      iso_to_datetime ∅ (fun _ => false) ∅ ∅ "doc1"
      (mkForm "Alice" "" "Math" 80 (mkDate 2024 1 1) true)
      (mkSelection "All" "All" Average true)
    = Some (∅,
            [st_title "🎓 Cloud-Based Student Marks Dashboard";
             st_main (st_error message)],
            Stopped).
Proof.
  apply (run_without_credentials_writes_nothing (json := unit)
           (credential := unit) (app := unit) (client := unit)); reflexivity.
Defined.

Lemma dashboard_body_starts to_datetime rows sel :
  exists rest,
    (dashboard_body to_datetime rows sel).1
    = st_subheader "All Records"
      :: st_dataframe (sort_values_date false rows) :: rest.
Proof.
  unfold dashboard_body. rewrite !emit_bind. cbn [fst]. by eexists.
Qed.

Lemma entry_form_valid (db : collection) doc_id f :
  valid_submission f ->
  entry_form db doc_id f
  = ([st_success "Record added successfully!"],
     Done (add_mark db doc_id (name f) (student_id f) (subject f) (marks f)
             (isoformat (date f)))).
Proof.
  intros (Hsub & Hname & Hsubject & _ & _). unfold entry_form.
  rewrite Hsub. by rewrite !bool_decide_eq_false_2 by done.
Qed.

(** X23.  A valid submission shows in the run that stores it.  On a
    collection written through the form, with a store client and a
    [pd.to_datetime] that reads the dates of [isoformat], the run in which
    a valid record is submitted under a new identifier reaches its end; the
    sidebar shows the success message, the table "All Records" holds the
    new record among one row per document, and the download offered is the
    CSV of the whole collection with the new document. *)
Theorem submission_shows_in_the_same_run
    {json credential app client : Type}
    (b64decode_utf8 : string -> option string)
    (json_loads : string -> option json)
    (Certificate_dict : json -> option credential)
    (Certificate_file : string -> option credential)
    (initialize_app : credential -> option app)
    (firestore_client : app -> option client)
    (to_datetime : string -> option Date)
    (environ : gmap string string) (path_exists : string -> bool)
    (apps : gmap string app) (db : collection) (doc_id : string)
    (f : form_input) (sel : selection)
    (out : list ui) (c : client) :
  init_firestore json credential app client b64decode_utf8 json_loads
    Certificate_dict Certificate_file initialize_app firestore_client
    environ path_exists apps = (out, Done c) ->
  (forall d, date_valid d -> to_datetime (isoformat d) = Some d) ->
  form_written db ->
  valid_submission f ->
  db !! doc_id = None ->
  exists db' page table,
    run_app json credential app client b64decode_utf8 json_loads
      Certificate_dict Certificate_file initialize_app firestore_client
      to_datetime environ path_exists apps db doc_id f sel
    = Some (db', page, Done tt)
    /\ db' = add_mark db doc_id (name f) (student_id f) (subject f) (marks f)
               (isoformat (date f))
    /\ st_sidebar (st_success "Record added successfully!") ∈ page
    /\ st_main (st_dataframe table) ∈ page
    /\ form_record doc_id (name f) (student_id f) (subject f) (marks f)
         (date f) ∈ table
    /\ length table = S (size db)
    /\ st_main (st_download_button "Download CSV" (to_csv (fetch_all db'))
                  "student_marks.csv" "text/csv") ∈ page.
Proof.
  intros Hinit Hread Hdb Hvalid Hfresh.
  set (db' := add_mark db doc_id (name f) (student_id f) (subject f)
                (marks f) (isoformat (date f))).
  assert (form_written db') as Hdb'.
  { destruct Hvalid as (_ & Hname & Hsubject & _ & Hdate).
    apply map_Forall_insert_2; [| exact Hdb].
    by exists (name f), (student_id f), (subject f), (marks f), (date f). }
  destruct (records_form_written db' Hdb') as (rows & Hrows & _ & Hall).
  assert (fetch_all db' <> []) as Hne.
  { intros Hnil%fetch_all_nil. by apply (insert_non_empty db doc_id) in Hnil. }
  assert (Forall (iso_dated to_datetime) rows) as Hiso.
  { eapply Forall_impl; [exact Hall |]. intros r.
    by apply form_row_iso_dated. }
  destruct (dashboard_body_starts to_datetime rows sel) as [rest Hstart].
  pose proof (dashboard_body_done to_datetime rows sel Hiso) as Hdone.
  eexists db', _, (sort_values_date false rows).
  split.
  { unfold run_app. rewrite Hinit, (entry_form_valid db doc_id f Hvalid).
    fold db'. rewrite (dashboard_records to_datetime _ rows sel Hne Hrows).
    cbn [mbind option_bind]. rewrite Hdone, (export_records _ Hne).
    reflexivity. }
  split; [reflexivity |].
  split.
  { apply elem_of_app; left. apply elem_of_app; left.
    apply elem_of_app; right. apply list_elem_of_fmap_2. left. }
  split.
  { apply elem_of_app; left. apply elem_of_app; right.
    apply list_elem_of_fmap_2. right. rewrite Hstart. right. left. }
  assert (sort_values_date false rows ≡ₚ rows) as Hperm
    by apply merge_sort_Permutation.
  split.
  { rewrite Hperm.
    assert (of_record (form_record doc_id (name f) (student_id f)
                         (subject f) (marks f) (date f))
            ∈ fetch_all db') as Hin.
    { unfold fetch_all. apply list_elem_of_fmap.
      exists (doc_id, new_document (name f) (student_id f) (subject f)
                        (marks f) (isoformat (date f))).
      split; [reflexivity |]. apply elem_of_stream.
      unfold db', add_mark. apply lookup_insert_eq. }
    rewrite (records_of_record _ _ Hrows) in Hin.
    apply list_elem_of_fmap in Hin as (r & Heq%of_record_inj & Hr).
    by subst r. }
  split.
  { rewrite Hperm. apply length_mapM in Hrows. rewrite <- Hrows.
    rewrite length_fetch_all. unfold db', add_mark.
    by rewrite map_size_insert_None. }
  apply elem_of_app; right. apply elem_of_app; left.
  apply list_elem_of_fmap_2. right. left.
Qed.

Lemma submission_shows_in_the_same_run_witness :
  exists db' page table,
    run_app unit unit unit unit (fun _ => Some "{}") (fun _ => Some tt)
      (fun _ => Some tt) (fun _ => None) (fun _ => Some tt)
      (fun _ => Some tt) iso_to_datetime
      {[ "FIREBASE_CREDENTIALS" := "e30=" ]} (fun _ => false) ∅ ∅ "doc1"
      (mkForm "Alice" "S1" "Math" 80 (mkDate 2024 1 1) true)
      (mkSelection "All" "All" Average true)
    = Some (db', page, Done tt)
    /\ st_main (st_dataframe table) ∈ page
    /\ form_record "doc1" "Alice" "S1" "Math" 80 (mkDate 2024 1 1) ∈ table.
Proof.
  destruct (submission_shows_in_the_same_run (json := unit)
              (credential := unit) (app := unit) (client := unit)
              (fun _ => Some "{}") (fun _ => Some tt)
              (fun _ => Some tt) (fun _ => None) (fun _ => Some tt)
              (fun _ => Some tt) iso_to_datetime
              {[ "FIREBASE_CREDENTIALS" := "e30=" ]} (fun _ => false) ∅ ∅
              "doc1" (mkForm "Alice" "S1" "Math" 80 (mkDate 2024 1 1) true)
              (mkSelection "All" "All" Average true) [] tt)
    as (db' & page & table & Hrun & _ & _ & Htable & Hrecord & _).
  - reflexivity.
  - apply iso_to_datetime_isoformat.
  - apply map_Forall_empty.
  - repeat split; simpl; try done; try lia; by vm_compute.
  - reflexivity.
  - exists db', page, table. split; [exact Hrun |].
    split; [exact Htable | exact Hrecord].
Defined.
